(** * Resource checker for email previews: a shallow embedding of [script.js]

    The page script fetches each source page through a chain of transports,
    extracts the anchors and images of the page, probes every resource and
    accumulates one record per resource in [validationResults]; the records
    can be exported as CSV.

    The browser (URL parser, DOM parser, [encodeURIComponent], [fetch]) is
    not part of the script: it is the interface [Browser] below, and every
    statement quantifies over it.  Script state (the accumulator, the error
    banner, the console, the network activity) is threaded explicitly. *)

From Stdlib Require Import String Ascii List ZArith Bool Lia DecimalString.
From Stdlib Require DecimalPos DecimalZ.
From Stdlib Require Import PrimFloat.
Import ListNotations.
Open Scope string_scope.
Set Warnings "-register-all".

(** ** JavaScript values read from the relay's JSON answer *)

(** A number is a binary64 float, as in JavaScript. *)
Inductive JSValue : Type :=
| VUndefined
| VNull
| VBool (b : bool)
| VNum (x : PrimFloat.float)
| VStr (s : string)
| VArr (items : list JSValue)
| VObj (members : list (string * JSValue)).

(** Own data property of a parsed object; a later duplicate key wins, as in
    [JSON.parse]. *)
Fixpoint member (k : string) (ms : list (string * JSValue)) : option JSValue :=
  match ms with
  | [] => None
  | (k', v) :: rest =>
      match member k rest with
      | Some v' => Some v'
      | None => if String.eqb k k' then Some v else None
      end
  end.

(** [v.k] for the keys the script reads ([status], [http_code]): [None] is
    the TypeError raised on [null] and [undefined]; primitives and arrays
    have no such property. *)
Definition getProp (v : JSValue) (k : string) : option JSValue :=
  match v with
  | VUndefined | VNull => None
  | VObj ms => Some (match member k ms with Some x => x | None => VUndefined end)
  | _ => Some VUndefined
  end.

Definition truthy (v : JSValue) : bool :=
  match v with
  | VUndefined | VNull => false
  | VBool b => b
  | VNum x => negb (PrimFloat.eqb x 0 || PrimFloat.is_nan x)
  | VStr s => negb (String.eqb s "")
  | VArr _ | VObj _ => true
  end.

Definition string_of_Z (n : Z) : string := NilZero.string_of_int (Z.to_int n).

(** [`${v}`]: the string conversion used by template literals, given the
    one of numbers. *)
Fixpoint ToString (numberToString : PrimFloat.float -> string) (v : JSValue)
  : string :=
  match v with
  | VUndefined => "undefined"
  | VNull => "null"
  | VBool true => "true"
  | VBool false => "false"
  | VNum x => numberToString x
  | VStr s => s
  | VArr items =>
      String.concat ","
        (map (fun x => match x with
                       | VUndefined | VNull => ""
                       | _ => ToString numberToString x
                       end) items)
  | VObj _ => "[object Object]"
  end.

(** ** The browser *)

Record Request : Type := mkRequest {
  req_url : string;
  req_method : string;
  req_mode : option string;
  req_accept : option string
}.

(** What the script can observe of a [Response]: [text()] and [json()] may
    reject, which is [None]. *)
Record Response : Type := mkResponse {
  resp_ok : bool;
  resp_status : Z;
  resp_statusText : string;
  resp_text : option string;
  resp_json : option JSValue
}.

(** Network activity of the page, oldest first. *)
Inductive Event : Type :=
| EvFetch (r : Request)
| EvDelay (ms : Z).

Inductive Node : Type :=
| Element (localName : string) (attributes : list (string * string))
          (childNodes : list Node)
| Text (data : string).

Record Browser : Type := mkBrowser {
  (** [new URL(url, base).href]; [None] when the constructor throws. *)
  URL : string -> option string -> option string;
  (** [None] is the URIError on a lone surrogate. *)
  encodeURIComponent : string -> option string;
  (** [new DOMParser().parseFromString(html, 'text/html')], the document
      element; the HTML parser recovers from any markup. *)
  parseFromString : string -> Node;
  (** Numeric value of a string, NaN when it has none. *)
  StringToNumber : string -> PrimFloat.float;
  (** The decimal text of a number *)
  NumberToString : PrimFloat.float -> string;
  (** Answer of the network to a request, given everything the page did
      before; [None] when the promise rejects. *)
  fetch : list Event -> Request -> option Response
}.

(** Elements with the given tag name, in document order. *)
Fixpoint querySelectorAll (sel : string) (n : Node) : list Node :=
  match n with
  | Text _ => []
  | Element name _ kids =>
      (if String.eqb name sel then [n] else [])
        ++ flat_map (querySelectorAll sel) kids
  end.

Fixpoint lookup_attr (name : string) (attrs : list (string * string))
  : option string :=
  match attrs with
  | [] => None
  | (k, v) :: rest => if String.eqb k name then Some v else lookup_attr name rest
  end.

Definition getAttribute (name : string) (n : Node) : option string :=
  match n with
  | Element _ attrs _ => lookup_attr name attrs
  | Text _ => None
  end.

(** ** Script state and the monad of the async functions *)

Record Resource : Type := mkResource {
  url : option string;           (* [null] when the attribute is absent *)
  type : string;
  corsRestricted : bool          (* absent property reads as falsy *)
}.

Record ValidationResult : Type := mkResult {
  sourceUrl : string;
  resultUrl : option string;
  resultType : string;
  status : string;
  reason : string
}.

Record State : Type := mkState {
  validationResults : list ValidationResult;
  errorMessage : string;
  console : list string;
  trace : list Event
}.

Inductive JSError : Type :=
| TypeError
| URIError
| BodyError.

Inductive Completion (A : Type) : Type :=
| Normal (a : A)
| Throw (e : JSError).
Arguments Normal {A} a.
Arguments Throw {A} e.

Definition M (A : Type) : Type := State -> Completion A * State.

Definition ret {A} (a : A) : M A := fun s => (Normal a, s).

Definition bind {A B} (m : M A) (k : A -> M B) : M B :=
  fun s => match m s with
           | (Normal a, s') => k a s'
           | (Throw e, s') => (Throw e, s')
           end.

Definition throw {A} (e : JSError) : M A := fun s => (Throw e, s).

Definition try_catch {A} (m : M A) (handler : JSError -> M A) : M A :=
  fun s => match m s with
           | (Normal a, s') => (Normal a, s')
           | (Throw e, s') => handler e s'
           end.

Declare Scope js_scope.
Delimit Scope js_scope with js.
Notation "x <- m ;; k" := (bind m (fun x => k))
  (at level 61, m at next level, right associativity) : js_scope.
Notation "m ;;; k" := (bind m (fun _ => k))
  (at level 61, right associativity) : js_scope.
Open Scope js_scope.

Definition of_option {A} (e : JSError) (o : option A) : M A :=
  match o with
  | Some a => ret a
  | None => throw e
  end.

Definition push (r : ValidationResult) : M unit :=
  fun s => (Normal tt,
            mkState (validationResults s ++ [r]) (errorMessage s)
                    (console s) (trace s)).

Definition showError (message : string) : M unit :=
  fun s => (Normal tt,
            mkState (validationResults s) message (console s) (trace s)).

(** [console.error(message, ...)]: the message is kept, the error object
    printed after it is not. *)
Definition console_error (message : string) : M unit :=
  fun s => (Normal tt,
            mkState (validationResults s) (errorMessage s)
                    (console s ++ [message]) (trace s)).

Definition log_event (e : Event) : M unit :=
  fun s => (Normal tt,
            mkState (validationResults s) (errorMessage s) (console s)
                    (trace s ++ [e])).

(** [await new Promise(resolve => setTimeout(resolve, ms))] *)
Definition delay (ms : Z) : M unit := log_event (EvDelay ms).

Definition CORS_RESTRICTED : string := "<!-- CORS_RESTRICTED -->".

Section Script.

Variable B : Browser.

(** [await fetch(url, options)] *)
Definition do_fetch (req : Request) : M Response :=
  fun s =>
    let s' := mkState (validationResults s) (errorMessage s) (console s)
                      (trace s ++ [EvFetch req]) in
    match fetch B (trace s) req with
    | Some r => (Normal r, s')
    | None => (Throw TypeError, s')
    end.

Definition isValidURL (u : string) : bool :=
  match URL B u None with
  | Some _ => true
  | None => false
  end.

Definition relay_raw (enc : string) : Request :=
  mkRequest ("https://api.allorigins.win/raw?url=" ++ enc) "GET" None
            (Some "text/html").

Definition direct_get (u : string) : Request :=
  mkRequest u "GET" (Some "cors") (Some "text/html").

Definition no_cors_head (u : string) : Request :=
  mkRequest u "HEAD" (Some "no-cors") None.

(** [fetchHTMLContent(url)]: the body, the in-band restricted marker, or
    [None] for [null]. *)
Definition fetchHTMLContent (u : string) : M (option string) :=
  try_catch
    (enc <- of_option URIError (encodeURIComponent B u) ;;
     response <- do_fetch (relay_raw enc) ;;
     if resp_ok response then
       body <- of_option BodyError (resp_text response) ;;
       ret (Some body)
     else
       console_error ("Failed to fetch " ++ u ++ " through proxy: "
                        ++ string_of_Z (resp_status response) ++ " "
                        ++ resp_statusText response) ;;;
       try_catch
         (directResponse <- do_fetch (direct_get u) ;;
          if resp_ok directResponse then
            body <- of_option BodyError (resp_text directResponse) ;;
            ret (Some body)
          else ret None)
         (fun directError =>
            console_error ("Direct fetch also failed for " ++ u ++ ":") ;;;
            ret None))
    (fun error =>
       console_error ("Error fetching " ++ u ++ " through proxy:") ;;;
       try_catch
         (_ <- do_fetch (no_cors_head u) ;;
          ret (Some CORS_RESTRICTED))
         (fun noCorsError =>
            console_error ("No-cors fetch also failed for " ++ u ++ ":") ;;;
            ret None)).

(** *** Extraction *)

Definition nonempty (o : option string) : bool :=
  match o with
  | Some s => negb (String.eqb s "")
  | None => false
  end.

Definition restricted_marker : Resource :=
  mkResource (Some "CORS_RESTRICTED") "error" true.

Definition anchor_resource (a : Node) : Resource :=
  mkResource (getAttribute "href" a) "link" false.

Definition image_resource (img : Node) : Resource :=
  mkResource (getAttribute "src" img) "image" false.

(** [extractResources(html)] *)
Definition extractResources (html : string) : list Resource :=
  if String.eqb html CORS_RESTRICTED then [restricted_marker]
  else
    let doc := parseFromString B html in
    let links := map anchor_resource (querySelectorAll "a" doc) in
    let images := map image_resource (querySelectorAll "img" doc) in
    filter (fun resource => nonempty (url resource)) (links ++ images).

(** *** Validation of the resources of one page *)

Definition ToNumber (v : JSValue) : PrimFloat.float :=
  match v with
  | VUndefined => PrimFloat.nan
  | VNull => 0%float
  | VBool b => if b then 1%float else 0%float
  | VNum x => x
  | VStr s => StringToNumber B s
  | VArr _ | VObj _ => StringToNumber B (ToString (NumberToString B) v)
  end.

(** [v >= k] and [v < k] against a number literal; a comparison with NaN
    is false. *)
Definition js_ge (v : JSValue) (k : PrimFloat.float) : bool :=
  PrimFloat.leb k (ToNumber v).

Definition js_lt (v : JSValue) (k : PrimFloat.float) : bool :=
  PrimFloat.ltb (ToNumber v) k.

Definition relay_head (enc : string) : Request :=
  mkRequest ("https://api.allorigins.win/get?url=" ++ enc ++ "&method=HEAD")
            "GET" None None.

(** [`${resource.url}`] and the first argument of [new URL]: [null] reads
    as the string [null]. *)
Definition string_of_nullable (o : option string) : string :=
  match o with
  | Some s => s
  | None => "null"
  end.

(** The inner [try] of the loop body: the status and the reason the relay
    gives for [absoluteUrl]. *)
Definition checkWithProxy (absoluteUrl : string) : M (string * string) :=
  enc <- of_option URIError (encodeURIComponent B absoluteUrl) ;;
  proxyResponse <- do_fetch (relay_head enc) ;;
  proxyData <- of_option BodyError (resp_json proxyResponse) ;;
  st <- of_option TypeError (getProp proxyData "status") ;;
  if truthy st then
    http_code <- of_option TypeError (getProp st "http_code") ;;
    if resp_ok proxyResponse && js_ge http_code 200 && js_lt http_code 400
    then ret ("Valid", "")
    else ret ("Broken",
              "Resource unavailable (HTTP "
                ++ ToString (NumberToString B) http_code ++ ")")
  else ret ("Broken", "Resource unavailable (HTTP unknown)").

(** The [catch (proxyError)] handler *)
Definition checkDirect (absoluteUrl : string) : M (string * string) :=
  console_error ("Error checking resource with proxy: " ++ absoluteUrl) ;;;
  try_catch
    (_ <- do_fetch (no_cors_head absoluteUrl) ;;
     ret ("Likely Valid", "CORS restrictions prevent full validation"))
    (fun directError =>
       ret ("Broken", "Network error or resource unavailable")).

(** The inner [try ... catch (proxyError)] statement of the loop body *)
Definition probeResource (absoluteUrl : string) : M (string * string) :=
  try_catch (checkWithProxy absoluteUrl)
            (fun proxyError => checkDirect absoluteUrl).

(** How an iteration of the resource loop ends: [continue] skips the pause
    at the end of the body. *)
Inductive Iteration : Type :=
| FallThrough
| Continue.

Definition validateResource (source : string) (resource : Resource)
  : M unit :=
  how <- try_catch
    (absoluteUrl <- of_option TypeError
       (URL B (string_of_nullable (url resource)) (Some source)) ;;
     if negb (isValidURL absoluteUrl) then
       push (mkResult source (url resource) (type resource)
                      "Broken" "Invalid URL format") ;;;
       ret Continue
     else
       sr <- probeResource absoluteUrl ;;
       push (mkResult source (Some absoluteUrl) (type resource)
                      (fst sr) (snd sr)) ;;;
       ret FallThrough)
    (fun error =>
       console_error ("General error processing "
                        ++ string_of_nullable (url resource) ++ ":") ;;;
       push (mkResult source (url resource) (type resource)
                      "Broken" "Error processing resource") ;;;
       ret FallThrough) ;;
  match how with
  | Continue => ret tt
  | FallThrough => delay 100
  end.

Fixpoint forEach {A} (xs : list A) (body : A -> M unit) : M unit :=
  match xs with
  | [] => ret tt
  | x :: rest => body x ;;; forEach rest body
  end.

(** [resources[0].corsRestricted], read only when the list has length 1 *)
Definition first_corsRestricted (resources : list Resource) : bool :=
  match resources with
  | r :: _ => corsRestricted r
  | [] => false
  end.

(** [validateResources(sourceUrl, resources)] *)
Definition validateResources (source : string) (resources : list Resource)
  : M unit :=
  if Nat.eqb (length resources) 1 && first_corsRestricted resources then
    push (mkResult source (Some source) "URL" "Unknown"
                   "CORS restricted - cannot access content")
  else if Nat.eqb (length resources) 0 then
    push (mkResult source (Some source) "URL" "Empty"
                   "No links or images found")
  else forEach resources (validateResource source).

(** *** The run over the source pages *)

(** [if (html)]: [null] and the empty string are falsy. *)
Definition html_truthy (html : option string) : bool := nonempty html.

(** The [try] block of the loop over the source pages *)
Definition sourceWork (source : string) : M unit :=
  html <- fetchHTMLContent source ;;
  match html with
  | Some page =>
      if html_truthy html
      then validateResources source (extractResources page)
      else showError ("Failed to fetch content from: " ++ source)
  | None => showError ("Failed to fetch content from: " ++ source)
  end.

(** [try { work } catch (error) { console.error(...) }] around one source *)
Definition guarded (work : string -> M unit) (source : string) : M unit :=
  try_catch (work source)
    (fun error => console_error ("Error processing URL " ++ source ++ ":")).

Definition processSource : string -> M unit := guarded sourceWork.

(** [validationResults = []; errorMessage.textContent = ''] *)
Definition clearPrevious : M unit :=
  fun s => (Normal tt, mkState [] "" (console s) (trace s)).

(** [validateURLs()], from the list [urls] of the non-blank input lines on.
    The table rendering after the loop only reads the accumulator. *)
Definition validateURLs (urls : list string) : M unit :=
  clearPrevious ;;;
  if Nat.eqb (length urls) 0 then
    showError "Please enter at least one URL."
  else if Nat.ltb 10 (length urls) then
    showError "Maximum 10 URLs allowed."
  else
    let invalidURLs := filter (fun u => negb (isValidURL u)) urls in
    if Nat.ltb 0 (length invalidURLs) then
      showError ("Invalid URL format: " ++ String.concat ", " invalidURLs)
    else
      try_catch (forEach urls processSource)
        (fun error =>
           console_error "Error during validation:" ;;;
           showError "An error occurred during validation. Please try again.").

End Script.

(** *** CSV export *)

Definition dquote : ascii := "034"%char.
Definition newline : ascii := "010"%char.
Definition comma : ascii := ","%char.

(** The global replace of every double quote by two of them *)
Fixpoint escape_quotes (s : string) : string :=
  match s with
  | EmptyString => EmptyString
  | String c rest =>
      if Ascii.eqb c dquote
      then String dquote (String dquote (escape_quotes rest))
      else String c (escape_quotes rest)
  end.

Definition quoted (field : string) : string :=
  String dquote (escape_quotes field ++ String dquote EmptyString).

(** [(x || '')] on a nullable string *)
Definition or_empty (o : option string) : string :=
  match o with
  | Some s => s
  | None => ""
  end.

Definition csvHeader : string :=
  "Source URL,Resource URL,Type,Status,Reason" ++ String newline EmptyString.

Definition csvRow (result : ValidationResult) : string :=
  quoted (sourceUrl result) ++ "," ++ quoted (or_empty (resultUrl result))
    ++ "," ++ quoted (resultType result) ++ "," ++ quoted (status result)
    ++ "," ++ quoted (reason result).

(** [exportAsCSV()]: the text handed to the download, [None] when the
    function returns without exporting. *)
Definition exportAsCSV (results : list ValidationResult) : option string :=
  if Nat.eqb (length results) 0 then None
  else Some (csvHeader
               ++ String.concat (String newline EmptyString)
                    (map csvRow results)).

(** *** Reading a CSV text back

    The script has no CSV reader; this is the usual one for quoted fields
    (a quote inside a quoted field is written twice, commas and line
    breaks are literal inside quotes, rows end at a line break), kept as
    the reference the export is read back with. *)

Inductive CsvState : Type :=
| RowStart
| FieldStart
| InUnquoted
| InQuoted
| QuoteSeen.

Definition snoc (s : string) (c : ascii) : string := s ++ String c EmptyString.

Fixpoint parseCSV_from (st : CsvState) (field : string) (row : list string)
  (rows : list (list string)) (input : string)
  : option (list (list string)) :=
  match input with
  | EmptyString =>
      match st with
      | RowStart => Some rows
      | FieldStart | InUnquoted | QuoteSeen =>
          Some (rows ++ [row ++ [field]])%list
      | InQuoted => None
      end
  | String c rest =>
      match st with
      | RowStart | FieldStart =>
          if Ascii.eqb c dquote then parseCSV_from InQuoted "" row rows rest
          else if Ascii.eqb c comma then
            parseCSV_from FieldStart "" (row ++ [""])%list rows rest
          else if Ascii.eqb c newline then
            parseCSV_from RowStart "" [] (rows ++ [row ++ [""]])%list rest
          else parseCSV_from InUnquoted (String c EmptyString) row rows rest
      | InUnquoted =>
          if Ascii.eqb c dquote then None
          else if Ascii.eqb c comma then
            parseCSV_from FieldStart "" (row ++ [field])%list rows rest
          else if Ascii.eqb c newline then
            parseCSV_from RowStart "" [] (rows ++ [row ++ [field]])%list rest
          else parseCSV_from InUnquoted (snoc field c) row rows rest
      | InQuoted =>
          if Ascii.eqb c dquote then parseCSV_from QuoteSeen field row rows rest
          else parseCSV_from InQuoted (snoc field c) row rows rest
      | QuoteSeen =>
          if Ascii.eqb c dquote then
            parseCSV_from InQuoted (snoc field dquote) row rows rest
          else if Ascii.eqb c comma then
            parseCSV_from FieldStart "" (row ++ [field])%list rows rest
          else if Ascii.eqb c newline then
            parseCSV_from RowStart "" [] (rows ++ [row ++ [field]])%list rest
          else None
      end
  end.

Definition parseCSV (input : string) : option (list (list string)) :=
  parseCSV_from RowStart "" [] [] input.

Definition headerFields : list string :=
  ["Source URL"; "Resource URL"; "Type"; "Status"; "Reason"].

(** The five strings a record is exported as *)
Definition resultFields (result : ValidationResult) : list string :=
  [sourceUrl result; or_empty (resultUrl result); resultType result;
   status result; reason result].

(** ** Definitions the statements are written with *)

(** The chain in the words of its description: three tiers, each tried
    when all the earlier ones failed, by status or by exception. *)
Definition relay_tier (B : Browser) (u : string) : M (option string) :=
  try_catch
    (enc <- of_option URIError (encodeURIComponent B u) ;;
     response <- do_fetch B (relay_raw enc) ;;
     if resp_ok response then
       body <- of_option BodyError (resp_text response) ;; ret (Some body)
     else ret None)
    (fun _ => ret None).

Definition direct_tier (B : Browser) (u : string) : M (option string) :=
  try_catch
    (response <- do_fetch B (direct_get u) ;;
     if resp_ok response then
       body <- of_option BodyError (resp_text response) ;; ret (Some body)
     else ret None)
    (fun _ => ret None).

Definition probe_tier (B : Browser) (u : string) : M bool :=
  try_catch (_ <- do_fetch B (no_cors_head u) ;; ret true)
            (fun _ => ret false).

Definition three_tier_chain (B : Browser) (u : string) : M (option string) :=
  relayed <- relay_tier B u ;;
  match relayed with
  | Some body => ret (Some body)
  | None =>
      direct <- direct_tier B u ;;
      match direct with
      | Some body => ret (Some body)
      | None =>
          reachable <- probe_tier B u ;;
          if reachable then ret (Some CORS_RESTRICTED) else ret None
      end
  end.

(** The statuses a probed resource can end with *)
Definition resource_status (st : string) : Prop :=
  st = "Valid" \/ st = "Broken" \/ st = "Likely Valid".

(** The record of a resource that resolved to [abs], with what the probe
    logged and did on the network. *)
Definition records (B : Browser) (source : string) (r : Resource) (s : State)
  (abs st rs : string) (logs : list string) (evs : list Event) : Prop :=
  validateResource B source r s
  = (Normal tt,
     mkState (validationResults s
                ++ [mkResult source (Some abs) (type r) st rs])
             (errorMessage s) (console s ++ logs) (trace s ++ evs)).

Fixpoint is_substring (needle hay : string) : bool :=
  String.prefix needle hay
  || match hay with
     | EmptyString => false
     | String _ rest => is_substring needle rest
     end.

(** ** A browser for the examples

    Just enough of a browser to run the script on concrete pages.  Its
    URL parser knows the absolute http(s) references of the examples, which
    are their own [href], and rejects a reference with an unclosed bracket
    host, any text without a scheme and any base that is not itself
    absolute; relative references are not among the examples.  The network
    and the pages are given as tables. *)

Module Stub.

Definition absolute (u : string) : bool :=
  negb (String.prefix "http://[" u)
  && (String.prefix "https://" u || String.prefix "http://" u).

Definition URL (u : string) (base : option string) : option string :=
  match base with
  | Some b => if absolute b && absolute u then Some u else None
  | None => if absolute u then Some u else None
  end.

Definition hex_digit (n : nat) : ascii :=
  match n with
  | 0 => "0" | 1 => "1" | 2 => "2" | 3 => "3" | 4 => "4" | 5 => "5"
  | 6 => "6" | 7 => "7" | 8 => "8" | 9 => "9" | 10 => "A" | 11 => "B"
  | 12 => "C" | 13 => "D" | 14 => "E" | _ => "F"
  end%char.

Definition unreserved (c : ascii) : bool :=
  let n := nat_of_ascii c in
  (Nat.leb 65 n && Nat.leb n 90) || (Nat.leb 97 n && Nat.leb n 122)
  || (Nat.leb 48 n && Nat.leb n 57)
  || existsb (Ascii.eqb c) ["-"; "_"; "."; "!"; "~"; "*"; "'"; "("; ")"]%char.

Fixpoint percent_encode (s : string) : string :=
  match s with
  | EmptyString => EmptyString
  | String c rest =>
      if unreserved c then String c (percent_encode rest)
      else String "%" (String (hex_digit (nat_of_ascii c / 16))
             (String (hex_digit (nat_of_ascii c mod 16))
                (percent_encode rest)))
  end.

(** The whole numbers from [k] on, [fuel] of them, as floats *)
Fixpoint whole_from (fuel : nat) (k : Z) (x : PrimFloat.float)
  : list (Z * PrimFloat.float) :=
  match fuel with
  | O => []
  | S more => (k, x) :: whole_from more (k + 1)%Z (PrimFloat.add x 1)
  end.

Definition wholes : list (Z * PrimFloat.float) := whole_from 1000 0%Z 0%float.

(** The texts of the whole numbers below 1000, which is all the examples
    carry; any other text is NaN here. *)
Definition StringToNumber (s : string) : PrimFloat.float :=
  if String.eqb s "" then 0%float
  else match find (fun kx => String.eqb (string_of_Z (fst kx)) s) wholes with
       | Some kx => snd kx
       | None => PrimFloat.nan
       end.

(** The whole numbers below 1000 print as their digits. *)
Definition NumberToString (x : PrimFloat.float) : string :=
  match find (fun kx => PrimFloat.eqb (snd kx) x) wholes with
  | Some kx => string_of_Z (fst kx)
  | None => "NaN"
  end.

Definition browser (pages : string -> Node)
  (net : list Event -> Request -> option Response) : Browser :=
  mkBrowser URL (fun s => Some (percent_encode s)) pages StringToNumber
            NumberToString net.

Definition no_page : string -> Node := fun _ => Element "html" [] [].

Definition s0 : State := mkState [] "" [] [].

End Stub.

Module FetchExamples.

Definition opaque : Response := mkResponse false 0 "" None None.

Definition page_url : string := "https://example.com/a".
Definition page_enc : string := "https%3A%2F%2Fexample.com%2Fa".

Definition is_relay (req : Request) : bool :=
  String.prefix "https://api.allorigins.win/" (req_url req).

Definition is_probe (req : Request) : bool :=
  match req_mode req with
  | Some m => String.eqb m "no-cors"
  | None => false
  end.

(** The relay answers 500, the page refuses cross-origin reads, the host
    is reachable. *)
Definition relay_down (h : list Event) (req : Request) : option Response :=
  if is_relay req then
    Some (mkResponse false 500 "Internal Server Error" (Some "") None)
  else if is_probe req then Some opaque
  else None.

(** The relay cannot be reached at all; the page itself allows
    cross-origin reads. *)
Definition relay_unreachable (h : list Event) (req : Request)
  : option Response :=
  if is_relay req then None
  else if is_probe req then Some opaque
  else Some (mkResponse true 200 "OK" (Some "<p>hello</p>") None).

(** Nothing answers. *)
Definition offline (h : list Event) (req : Request) : option Response := None.

End FetchExamples.

Module ValidatorExamples.

Definition source : string := "https://example.com/a".
Definition image_url : string := "https://cdn.example.com/x.png".
Definition image_enc : string := "https%3A%2F%2Fcdn.example.com%2Fx.png".
Definition image : Resource := mkResource (Some image_url) "image" false.
Definition bad_link : Resource := mkResource (Some "http://[") "link" false.

Definition relay_answer (code : PrimFloat.float) : Response :=
  mkResponse true 200 "OK" None
    (Some (VObj [("contents", VNull);
                 ("status", VObj [("url", VStr image_url);
                                  ("http_code", VNum code)])])).

(** The relay answers every request, reporting status 200 for the target. *)
Definition relay_says_200 (h : list Event) (req : Request)
  : option Response :=
  if FetchExamples.is_relay req then Some (relay_answer 200) else None.

(** The relay answers every status request with the JSON text [null];
    the host itself is reachable. *)
Definition relay_says_null (h : list Event) (req : Request)
  : option Response :=
  if FetchExamples.is_relay req
  then Some (mkResponse true 200 "OK" None (Some VNull))
  else if FetchExamples.is_probe req then Some FetchExamples.opaque
  else None.

End ValidatorExamples.

Module PipelineExamples.

Definition source : string := "https://example.com/a".
Definition source_enc : string := "https%3A%2F%2Fexample.com%2Fa".
Definition link_url : string := "https://example.com/b".
Definition image_url : string := "https://cdn.example.com/x.png".

Definition body : string :=
  "<a href=https://example.com/b>b</a><img src=https://cdn.example.com/x.png><a>c</a>".

(** The document the HTML parser builds for [body]. *)
Definition document : Node :=
  Element "html" []
    [Element "head" [] [];
     Element "body" []
       [Element "a" [("href", link_url)] [Text "b"];
        Element "img" [("src", image_url)] [];
        Element "a" [] [Text "c"]]].

Definition pages (html : string) : Node :=
  if String.eqb html body then document else Stub.no_page html.

Definition status_answer (code : PrimFloat.float) : Response :=
  mkResponse true 200 "OK" None
    (Some (VObj [("status", VObj [("http_code", VNum code)])])).

(** The relay serves the page, reports 404 for the link and 200 for the
    image; nothing else is reachable. *)
Definition net (h : list Event) (req : Request) : option Response :=
  if String.prefix "https://api.allorigins.win/raw?" (req_url req) then
    Some (mkResponse true 200 "OK" (Some body) None)
  else if String.prefix
            "https://api.allorigins.win/get?url=https%3A%2F%2Fexample.com%2Fb"
            (req_url req)
  then Some (status_answer 404)
  else if FetchExamples.is_relay req then Some (status_answer 200)
  else None.

Definition browser : Browser := Stub.browser pages net.

Definition offline : Browser :=
  Stub.browser Stub.no_page FetchExamples.offline.

Definition eleven : list string :=
  ["https://example.com/1"; "https://example.com/2"; "https://example.com/3";
   "https://example.com/4"; "https://example.com/5"; "https://example.com/6";
   "https://example.com/7"; "https://example.com/8"; "https://example.com/9";
   "https://example.com/10"; "not a url"].

End PipelineExamples.

Module SentinelExamples.

(** The relay serves a page whose whole body is the marker text. *)
Definition serves_marker (h : list Event) (req : Request) : option Response :=
  if FetchExamples.is_relay req
  then Some (mkResponse true 200 "OK" (Some CORS_RESTRICTED) None)
  else None.

Definition browser : Browser := Stub.browser Stub.no_page serves_marker.

End SentinelExamples.

(** A record whose fields need quoting: a comma, quotes, a line break. *)
Definition quoting_result : ValidationResult :=
  mkResult "https://example.com/a" (Some "https://example.com/b,c") "link"
           "Broken" ("Resource " ++ String dquote ("x" ++ String dquote
                       (String newline "unavailable"))).

(** ** The rest of the page script *)

(** *** The input box *)

Definition ascii_space (c : ascii) : bool :=
  let n := nat_of_ascii c in
  (Nat.leb 9 n && Nat.leb n 13) || Nat.eqb n 32.

(** U+00A0 in UTF-8 *)
Definition space2 (c1 c2 : ascii) : bool :=
  Nat.eqb (nat_of_ascii c1) 194 && Nat.eqb (nat_of_ascii c2) 160.

(** U+1680, U+2000 to U+200A, U+2028, U+2029, U+202F, U+205F, U+3000 and
    U+FEFF in UTF-8 *)
Definition space3 (c1 c2 c3 : ascii) : bool :=
  let n1 := nat_of_ascii c1 in
  let n2 := nat_of_ascii c2 in
  let n3 := nat_of_ascii c3 in
  (Nat.eqb n1 225 && Nat.eqb n2 154 && Nat.eqb n3 128)
  || (Nat.eqb n1 226 && Nat.eqb n2 128
      && ((Nat.leb 128 n3 && Nat.leb n3 138) || Nat.eqb n3 168
          || Nat.eqb n3 169 || Nat.eqb n3 175))
  || (Nat.eqb n1 226 && Nat.eqb n2 129 && Nat.eqb n3 159)
  || (Nat.eqb n1 227 && Nat.eqb n2 128 && Nat.eqb n3 128)
  || (Nat.eqb n1 239 && Nat.eqb n2 187 && Nat.eqb n3 191).

(** Drops the white space and line terminators a text starts with.  With
    [back] the text is read from its end, so the bytes of a character come
    last byte first. *)
Fixpoint strip_space (back : bool) (s : string) : string :=
  match s with
  | EmptyString => EmptyString
  | String c1 r1 =>
      if ascii_space c1 then strip_space back r1
      else
        match r1 with
        | EmptyString => s
        | String c2 r2 =>
            if (if back then space2 c2 c1 else space2 c1 c2)
            then strip_space back r2
            else
              match r2 with
              | EmptyString => s
              | String c3 r3 =>
                  if (if back then space3 c3 c2 c1 else space3 c1 c2 c3)
                  then strip_space back r3
                  else s
              end
        end
  end.

Fixpoint reverse_onto (s acc : string) : string :=
  match s with
  | EmptyString => acc
  | String c rest => reverse_onto rest (String c acc)
  end.

Definition reverse (s : string) : string := reverse_onto s EmptyString.

(** [s.trim()] on UTF-8 text *)
Definition trim (s : string) : string :=
  reverse (strip_space true (reverse (strip_space false s))).

(** The split at every line feed: one more piece than there are line
    feeds, the empty text giving one empty piece. *)
Fixpoint split_lines (s : string) : list string :=
  match s with
  | EmptyString => [EmptyString]
  | String c rest =>
      if Ascii.eqb c newline then EmptyString :: split_lines rest
      else
        match split_lines rest with
        | line :: others => String c line :: others
        | [] => [String c EmptyString]
        end
  end.

(** The list [urls] read from the input box *)
Definition inputURLs (value : string) : list string :=
  filter (fun u => negb (String.eqb (trim u) ""))
         (split_lines (trim value)).

Fixpoint contains_char (c : ascii) (s : string) : bool :=
  match s with
  | EmptyString => false
  | String c' rest => Ascii.eqb c c' || contains_char c rest
  end.

Fixpoint all_chars (p : ascii -> bool) (s : string) : bool :=
  match s with
  | EmptyString => true
  | String c rest => p c && all_chars p rest
  end.

(** *** The results table *)

Inductive Cell : Type :=
| LinkCell (href text : string)
| TextCell (text : string).

Record Row : Type := mkRow {
  sourceCell : Cell;
  urlCell : Cell;
  typeCell : string;
  statusClass : string;
  statusText : string;
  statusTitle : option string
}.

(** The four numbers of the summary row; the markup around them is fixed. *)
Record Summary : Type := mkSummary {
  totalResources : nat;
  validResources : nat;
  brokenResources : nat;
  unknownResources : nat
}.

Record Table : Type := mkTable {
  rows : list Row;
  summary : Summary
}.

Definition is_status (expected : string) (result : ValidationResult) : bool :=
  String.eqb (status result) expected.

Definition ascii_upper (c : ascii) : ascii :=
  let n := nat_of_ascii c in
  if Nat.leb 97 n && Nat.leb n 122 then ascii_of_nat (n - 32) else c.

Section Display.

(** [t.charAt(0).toUpperCase() + t.slice(1)] on a text that starts with a
    character outside ASCII, where the Unicode case tables decide. *)
Variable capitalizeNonAscii : string -> string.

Definition capitalize (t : string) : string :=
  match t with
  | EmptyString => EmptyString
  | String c rest =>
      if Nat.ltb (nat_of_ascii c) 128 then String (ascii_upper c) rest
      else capitalizeNonAscii t
  end.

Definition displayRow (result : ValidationResult) : Row :=
  mkRow
    (LinkCell (sourceUrl result) (sourceUrl result))
    (match resultUrl result with
     | Some u =>
         if negb (String.eqb u "") && negb (String.eqb u "CORS_RESTRICTED")
         then LinkCell u u
         else TextCell (if String.eqb u "" then "N/A" else u)
     | None => TextCell "N/A"
     end)
    (capitalize (resultType result))
    (if String.eqb (status result) "Valid" then "status-valid"
     else if String.eqb (status result) "Likely Valid" then "status-valid"
     else if String.eqb (status result) "Broken" then "status-broken"
     else "status-unknown")
    (status result)
    (if String.eqb (reason result) "" then None else Some (reason result)).

(** [displayResults()]: the rows appended to the table body, in order,
    and the summary row after them. *)
Definition displayResults (results : list ValidationResult) : Table :=
  mkTable
    (map displayRow results)
    (mkSummary
       (length results)
       (length (filter (fun r => is_status "Valid" r
                                 || is_status "Likely Valid" r) results))
       (length (filter (fun r => is_status "Broken" r) results))
       (length (filter (fun r => negb (is_status "Valid" r)
                                 && negb (is_status "Likely Valid" r)
                                 && negb (is_status "Broken" r)) results))).

(** *** The page around a run *)

(** The elements the run shows and hides; the table body is [None] when
    its markup is empty. *)
Record View : Type := mkView {
  exportBtn_disabled : bool;
  loadingIndicator_hidden : bool;
  resultsTableContainer_hidden : bool;
  noResultsMessage_hidden : bool;
  resultsBody : option Table
}.

Definition getResults : M (list ValidationResult) :=
  fun s => (Normal (validationResults s), s).

(** [validateURLs()] with the page elements: the click handler from the
    text of the input box to the state and the view it leaves. *)
Definition validateURLs_page (B : Browser) (value : string) (v : View)
  : M View :=
  let cleared :=
    mkView true (loadingIndicator_hidden v) (resultsTableContainer_hidden v)
           (noResultsMessage_hidden v) None in
  clearPrevious ;;;
  let urls := inputURLs value in
  if Nat.eqb (length urls) 0 then
    showError "Please enter at least one URL." ;;; ret cleared
  else if Nat.ltb 10 (length urls) then
    showError "Maximum 10 URLs allowed." ;;; ret cleared
  else
    let invalidURLs := filter (fun u => negb (isValidURL B u)) urls in
    if Nat.ltb 0 (length invalidURLs) then
      showError ("Invalid URL format: " ++ String.concat ", " invalidURLs) ;;;
      ret cleared
    else
      let loading := mkView true false true true None in
      shown <- try_catch
        (forEach urls (processSource B) ;;;
         results <- getResults ;;
         if Nat.ltb 0 (length results) then
           ret (mkView false false false true
                       (Some (displayResults results)))
         else ret (mkView true false true false None))
        (fun error =>
           console_error "Error during validation:" ;;;
           showError "An error occurred during validation. Please try again."
           ;;; ret loading) ;;
      ret (mkView (exportBtn_disabled shown) true
                  (resultsTableContainer_hidden shown)
                  (noResultsMessage_hidden shown) (resultsBody shown)).

End Display.

(** *** The download of the export *)

(** The local time the export reads from [new Date()] *)
Record LocalTime : Type := mkLocalTime {
  getFullYear : Z;
  getMonth : Z;          (* 0 for January *)
  getDate : Z;
  getHours : Z;
  getMinutes : Z
}.

(** [s.padStart(n, fill)] for a one-character [fill] *)
Definition padStart (n : nat) (fill : ascii) (s : string) : string :=
  string_of_list_ascii (repeat fill (n - String.length s)) ++ s.

Definition two_digits (n : Z) : string := padStart 2 "0" (string_of_Z n).

Definition timestamp (now : LocalTime) : string :=
  string_of_Z (getFullYear now) ++ "-" ++ two_digits (getMonth now + 1)
    ++ "-" ++ two_digits (getDate now) ++ "_" ++ two_digits (getHours now)
    ++ "-" ++ two_digits (getMinutes now).

Record Download : Type := mkDownload {
  download_name : string;
  blob_type : string;
  blob_data : string
}.

(** [exportAsCSV()] with the file it hands to the browser *)
Definition exportAsCSV_download (results : list ValidationResult)
  (now : LocalTime) : option Download :=
  match exportAsCSV results with
  | Some csvData =>
      Some (mkDownload ("resource_validation_" ++ timestamp now ++ ".csv")
                       "text/csv;charset=utf-8;" csvData)
  | None => None
  end.

(** ** Measures on the network activity *)

Definition is_fetch (e : Event) : bool :=
  match e with
  | EvFetch _ => true
  | EvDelay _ => false
  end.

Definition count_fetches (t : list Event) : nat := length (filter is_fetch t).

Definition count_delays (t : list Event) : nat :=
  length (filter (fun e => negb (is_fetch e)) t).

(** What one resource adds to the activity: nothing, or at most two
    requests and then the pause. *)
Definition resource_block (evs : list Event) : Prop :=
  evs = []
  \/ exists requests, evs = (map EvFetch requests ++ [EvDelay 100])%list
                      /\ length requests <= 2.



(** The relay answered the status request for [abs], made after the
    activity [h], with a success and a status code whose number lies in
    [200,400). *)
Definition authoritative (B : Browser) (abs : string) (h : list Event)
  : Prop :=
  exists enc resp data st code,
    encodeURIComponent B abs = Some enc
    /\ fetch B h (relay_head enc) = Some resp
    /\ resp_ok resp = true
    /\ resp_json resp = Some data
    /\ getProp data "status" = Some st
    /\ truthy st = true
    /\ getProp st "http_code" = Some code
    /\ js_ge B code 200 && js_lt B code 400 = true.

(** The no-cors probe of [abs] that an iteration starting after the
    activity [h] makes: right away when [abs] cannot be encoded, after the
    relay request otherwise; it resolved with [p]. *)
Definition probed_after (B : Browser) (abs : string) (h : list Event)
  (p : Response) : Prop :=
  (encodeURIComponent B abs = None
   /\ fetch B h (no_cors_head abs) = Some p)
  \/ (exists enc,
         encodeURIComponent B abs = Some enc
         /\ fetch B (h ++ [EvFetch (relay_head enc)]) (no_cors_head abs)
            = Some p).

(** The four ways the probe of a resolved resource ends *)
Definition probe_verdict (B : Browser) (abs : string) (h : list Event)
  (st rs : string) : Prop :=
  (st = "Valid" /\ rs = "" /\ authoritative B abs h)
  \/ (st = "Broken"
      /\ exists code, rs = "Resource unavailable (HTTP " ++ code ++ ")")
  \/ (st = "Likely Valid"
      /\ rs = "CORS restrictions prevent full validation"
      /\ ~ authoritative B abs h
      /\ exists p, probed_after B abs h p)
  \/ (st = "Broken" /\ rs = "Network error or resource unavailable").

(** What one iteration of the resource loop does to a resource, after the
    activity [h]: the record it files, what it logs, what it adds to the
    activity. *)
Definition resource_outcome (B : Browser) (source : string) (r : Resource)
  (h : list Event) (rec : ValidationResult) (logs : list string)
  (evs : list Event) : Prop :=
  (URL B (string_of_nullable (url r)) (Some source) = None
   /\ rec = mkResult source (url r) (type r) "Broken"
                     "Error processing resource"
   /\ evs = [EvDelay 100])
  \/ (exists abs,
         URL B (string_of_nullable (url r)) (Some source) = Some abs
         /\ isValidURL B abs = false
         /\ rec = mkResult source (url r) (type r) "Broken"
                           "Invalid URL format"
         /\ logs = [] /\ evs = [])
  \/ (exists abs st rs requests,
         URL B (string_of_nullable (url r)) (Some source) = Some abs
         /\ isValidURL B abs = true
         /\ rec = mkResult source (Some abs) (type r) st rs
         /\ evs = (map EvFetch requests ++ [EvDelay 100])%list
         /\ 1 <= length requests <= 2
         /\ probe_verdict B abs h st rs).

(** The iterations of the resource loop of one page, each after the
    activity of the earlier ones. *)
Inductive page_steps (B : Browser) (source : string)
  : list Resource -> list Event -> list ValidationResult
    -> list (list Event) -> Prop :=
| page_done (h : list Event) : page_steps B source [] h [] []
| page_next (r : Resource) (rest : list Resource) (h : list Event)
    (rec : ValidationResult) (logs : list string) (evs : list Event)
    (recs : list ValidationResult) (blocks : list (list Event)) :
    resource_outcome B source r h rec logs evs ->
    page_steps B source rest (h ++ evs) recs blocks ->
    page_steps B source (r :: rest) h (rec :: recs) (evs :: blocks).

(** The shape of the records a run files for the source page [u] *)
Definition record_ok (u : string) (rec : ValidationResult) : Prop :=
  sourceUrl rec = u
  /\ resultUrl rec <> None
  /\ (((resultType rec = "link" \/ resultType rec = "image")
       /\ resource_status (status rec))
      \/ (resultType rec = "URL" /\ resultUrl rec = Some u
          /\ (status rec = "Unknown" \/ status rec = "Empty"))).

(** A record filed by the resource loop for the source page [u] *)
Definition link_record (u : string) (rec : ValidationResult) : Prop :=
  sourceUrl rec = u
  /\ resultUrl rec <> None
  /\ (resultType rec = "link" \/ resultType rec = "image")
  /\ resource_status (status rec).

(** The records one source page [u] leaves in a run, as a group: none, the
    one URL-typed record of a restricted page, the one URL-typed record of
    a page without resources, or one link or image record per resource. *)
Definition group_ok (u : string) (group : list ValidationResult) : Prop :=
  group = []
  \/ group = [mkResult u (Some u) "URL" "Unknown"
                       "CORS restricted - cannot access content"]
  \/ group = [mkResult u (Some u) "URL" "Empty" "No links or images found"]
  \/ (group <> [] /\ Forall (link_record u) group).

(** What the work on one source page leaves: its records, the error
    banner, and the activity it added. *)
Definition source_facts (u before after : string)
  (added : list ValidationResult) (evs : list Event) : Prop :=
  Forall (record_ok u) added
  /\ (after = before
      \/ (after = "Failed to fetch content from: " ++ u /\ added = []))
  /\ 1 <= count_fetches evs <= 2 + 2 * length added
  /\ count_delays evs <= length added
  /\ group_ok u added.

(** The requests one call of the fetcher makes *)
Definition fetcher_requests (B : Browser) (u : string)
  (requests : list Request) : Prop :=
  (exists enc,
      encodeURIComponent B u = Some enc
      /\ (requests = [relay_raw enc]
          \/ requests = [relay_raw enc; direct_get u]
          \/ requests = [relay_raw enc; no_cors_head u]))
  \/ (encodeURIComponent B u = None /\ requests = [no_cors_head u]).

(** The lists of source URLs that pass the checks of a run *)
Definition accepted (B : Browser) (urls : list string) : Prop :=
  urls <> [] /\ length urls <= 10
  /\ Forall (fun u => isValidURL B u = true) urls.

(** The rows of a table with a given status class *)
Definition count_class (class : string) (table_rows : list Row) : nat :=
  length (filter (fun row => String.eqb (statusClass row) class) table_rows).

(** The five strings of a record that has a url *)
Definition exactFields (result : ValidationResult) (fields : list string)
  : Prop :=
  exists u, resultUrl result = Some u
            /\ fields = [sourceUrl result; u; resultType result;
                         status result; reason result].

(** The ranges of the local time getters *)
Definition valid_time (now : LocalTime) : Prop :=
  (0 <= getMonth now <= 11)%Z /\ (1 <= getDate now <= 31)%Z
  /\ (0 <= getHours now <= 23)%Z /\ (0 <= getMinutes now <= 59)%Z.

Module PageExamples.

(** 3 November 2026, 09:05 local time *)
Definition export_time : LocalTime := mkLocalTime 2026 10 3 9 5.

Definition typed_lines : list string :=
  ["https://example.com/a"; "https://example.com/b c"; "not a url"].

(** A space, a line feed, a tab and a space *)
Definition blank_text : string :=
  String " " (String newline (String "009" (String " " EmptyString))).

(** No non-ASCII type occurs in the examples. *)
Definition keep : string -> string := fun t => t.

Definition old_view : View := mkView false true false true None.

End PageExamples.

(** * Properties *)

(** ** Reasoning in the monad *)

Lemma bind_normal {A C} (m : M A) (k : A -> M C) s a s' :
  m s = (Normal a, s') -> bind m k s = k a s'.
Proof. intros E. unfold bind. now rewrite E. Qed.

Lemma try_catch_normal {A} (m : M A) h s a s' :
  m s = (Normal a, s') -> try_catch m h s = (Normal a, s').
Proof. intros E. unfold try_catch. now rewrite E. Qed.

Ltac unfold_js :=
  unfold of_option, delay in *;
  unfold bind, ret, throw, try_catch, push, showError, console_error,
    log_event, do_fetch in *.

(** Case analysis on what the browser answers, innermost observation
    first. *)
Ltac observe :=
  match goal with
  | |- context [match encodeURIComponent ?b ?u with _ => _ end] =>
      destruct (encodeURIComponent b u) eqn:?
  | |- context [match URL ?b ?u ?base with _ => _ end] =>
      destruct (URL b u base) eqn:?
  | |- context [match fetch ?b ?h ?r with _ => _ end] =>
      destruct (fetch b h r) eqn:?
  | |- context [if resp_ok ?r then _ else _] => destruct (resp_ok r) eqn:?
  | |- context [match resp_text ?r with _ => _ end] =>
      destruct (resp_text r) eqn:?
  | |- context [match resp_json ?r with _ => _ end] =>
      destruct (resp_json r) eqn:?
  | |- context [match getProp ?v ?k with _ => _ end] =>
      destruct (getProp v k) eqn:?
  | |- context [if truthy ?v then _ else _] => destruct (truthy v) eqn:?
  | |- context [if ?c then _ else _] => destruct c eqn:?
  end; simpl.

(** ** CSV export *)

Lemma append_assoc (a b c : string) : (a ++ b) ++ c = a ++ (b ++ c).
Proof.
  induction a as [|x a IH]; simpl; [reflexivity | now rewrite IH].
Qed.

Lemma append_nil_r (a : string) : a ++ "" = a.
Proof.
  induction a as [|x a IH]; simpl; [reflexivity | now rewrite IH].
Qed.

Lemma snoc_append (field : string) (c : ascii) (rest : string) :
  snoc field c ++ rest = field ++ String c rest.
Proof.
  unfold snoc. now rewrite append_assoc.
Qed.

(** Inside quotes, the escaped text of [f] reads back as [f]. *)
Lemma parse_escaped f : forall field row rows rest,
  parseCSV_from InQuoted field row rows (escape_quotes f ++ rest)
  = parseCSV_from InQuoted (field ++ f) row rows rest.
Proof.
  induction f as [|c f IH]; intros field row rows rest; simpl.
  - now rewrite append_nil_r.
  - destruct (Ascii.eqb c dquote) eqn:E; simpl.
    + apply Ascii.eqb_eq in E. subst c.
      rewrite IH. now rewrite snoc_append.
    + rewrite E, IH. now rewrite snoc_append.
Qed.

Lemma parse_quoted_from (st : CsvState) f row rows rest :
  st = RowStart \/ st = FieldStart ->
  parseCSV_from st "" row rows (quoted f ++ rest)
  = parseCSV_from QuoteSeen f row rows rest.
Proof.
  intros Hst. unfold quoted.
  assert (E : parseCSV_from st "" row rows
                (String dquote (escape_quotes f ++ String dquote "") ++ rest)
              = parseCSV_from InQuoted "" row rows
                  (escape_quotes f ++ String dquote rest)).
  { destruct Hst; subst st; simpl; now rewrite append_assoc. }
  rewrite E, parse_escaped. reflexivity.
Qed.

Lemma parse_comma f row rows rest :
  parseCSV_from QuoteSeen f row rows ("," ++ rest)
  = parseCSV_from FieldStart "" (row ++ [f]) rows rest.
Proof. reflexivity. Qed.

Lemma parse_row result rows rest :
  parseCSV_from RowStart "" [] rows (csvRow result ++ rest)
  = parseCSV_from QuoteSeen (reason result)
      [sourceUrl result; or_empty (resultUrl result); resultType result;
       status result] rows rest.
Proof.
  unfold csvRow. repeat rewrite append_assoc.
  rewrite parse_quoted_from by auto.
  do 4 (rewrite parse_comma, parse_quoted_from by auto).
  reflexivity.
Qed.

Lemma parse_rows results : forall rows,
  results <> [] ->
  parseCSV_from RowStart "" [] rows
    (String.concat (String newline "") (map csvRow results))
  = Some (rows ++ map resultFields results)%list.
Proof.
  induction results as [|r rs IH]; intros rows Hne; [congruence|].
  destruct rs as [|r' rs].
  - change (String.concat (String newline "") (map csvRow [r]))
      with (csvRow r).
    rewrite <- (append_nil_r (csvRow r)), parse_row. reflexivity.
  - change (String.concat (String newline "") (map csvRow (r :: r' :: rs)))
      with (csvRow r ++ String newline
              (String.concat (String newline "") (map csvRow (r' :: rs)))).
    rewrite parse_row.
    change (parseCSV_from RowStart "" [] (rows ++ [resultFields r])
              (String.concat (String newline "") (map csvRow (r' :: rs)))
            = Some (rows ++ map resultFields (r :: r' :: rs))%list).
    rewrite IH by discriminate.
    now rewrite <- app_assoc.
Qed.

Lemma parse_header rows rest :
  parseCSV_from RowStart "" [] rows (csvHeader ++ rest)
  = parseCSV_from RowStart "" [] (rows ++ [headerFields]) rest.
Proof. reflexivity. Qed.

(** C9, as stated, fails on the empty accumulator: [exportAsCSV] returns
    before building any text, so there is no header row to read back. *)
Lemma exportAsCSV_empty_exports_nothing :
  exportAsCSV [] = None
  /\ ~ (forall results : list ValidationResult,
          exists csv, exportAsCSV results = Some csv
                      /\ parseCSV csv
                         = Some (headerFields :: map resultFields results)).
Proof.
  split; [reflexivity|].
  intros H. destruct (H []) as (csv & E & _). discriminate E.
Qed.

(** C9 (amended): for every non-empty list of N results the export is the
    header line followed by N lines of five quoted fields, inner quotes
    doubled, and reading the text back gives the header row and N rows
    whose five fields are the records' sourceUrl, url, type, status and
    reason (a null url is exported as the empty field). *)
Theorem exportAsCSV_round_trip (results : list ValidationResult) :
  results <> [] ->
  exists csv,
    exportAsCSV results = Some csv
    /\ csv = csvHeader ++ String.concat (String newline "") (map csvRow results)
    /\ (forall r, csvRow r
                  = String.concat ","
                      (map (fun f => String dquote (escape_quotes f)
                                       ++ String dquote "")
                           (resultFields r)))
    /\ parseCSV csv = Some (headerFields :: map resultFields results)
    /\ length (map resultFields results) = length results.
Proof.
  intros Hne. eexists. split; [|split; [reflexivity|split; [|split]]].
  - unfold exportAsCSV. destruct results; [congruence | reflexivity].
  - intros r. reflexivity.
  - unfold parseCSV. rewrite parse_header, parse_rows by assumption.
    reflexivity.
  - apply length_map.
Qed.

Lemma exportAsCSV_round_trip_witness :
  [quoting_result; quoting_result] <> []
  /\ exists csv,
       exportAsCSV [quoting_result; quoting_result] = Some csv
       /\ parseCSV csv
          = Some [headerFields; resultFields quoting_result;
                  resultFields quoting_result].
Proof.
  split; [discriminate|].
  destruct (exportAsCSV_round_trip [quoting_result; quoting_result])
    as (csv & E & _ & _ & P & _); [discriminate|].
  exists csv. split; assumption.
Defined.

(** ** Extraction *)

Section ExtractionProperties.

Variable B : Browser.

Lemma filter_map_resource {A} (mk : A -> Resource) (xs : list A) :
  filter (fun resource => nonempty (url resource)) (map mk xs)
  = map mk (filter (fun x => nonempty (url (mk x))) xs).
Proof.
  induction xs as [|x xs IH]; simpl; [reflexivity|].
  destruct (nonempty (url (mk x))); simpl; now rewrite IH.
Qed.

Lemma nonempty_spec o :
  nonempty o = true <-> exists s, o = Some s /\ s <> "".
Proof.
  destruct o as [s|]; simpl.
  - rewrite negb_true_iff, String.eqb_neq. split.
    + intros H. now exists s.
    + intros (s' & E & H). now inversion E; subst.
  - split; [discriminate | intros (s & E & _); discriminate].
Qed.

(** C8: on a page that is not the restricted marker, the resources are the
    anchors with a non-empty href, as links, in document order, followed by
    the images with a non-empty src, as images, in document order; every
    anchor and image with a non-empty reference is there, and no resource
    with an absent or empty reference is.  The function is total: whatever
    the markup, the DOM parser answers with a document. *)
Theorem extractResources_links_then_images (html : string) :
  html <> CORS_RESTRICTED ->
  let doc := parseFromString B html in
  extractResources B html
  = (map anchor_resource
         (filter (fun a => nonempty (getAttribute "href" a))
                 (querySelectorAll "a" doc))
     ++ map image_resource
         (filter (fun img => nonempty (getAttribute "src" img))
                 (querySelectorAll "img" doc)))%list
  /\ Forall (fun r => exists s, url r = Some s /\ s <> "")
            (extractResources B html)
  /\ (forall a h, In a (querySelectorAll "a" doc) ->
                  getAttribute "href" a = Some h -> h <> "" ->
                  In (mkResource (Some h) "link" false)
                     (extractResources B html))
  /\ (forall img h, In img (querySelectorAll "img" doc) ->
                    getAttribute "src" img = Some h -> h <> "" ->
                    In (mkResource (Some h) "image" false)
                       (extractResources B html)).
Proof.
  intros Hne doc.
  assert (E : extractResources B html
              = filter (fun resource => nonempty (url resource))
                  (map anchor_resource (querySelectorAll "a" doc)
                   ++ map image_resource (querySelectorAll "img" doc))).
  { unfold extractResources.
    destruct (String.eqb_spec html CORS_RESTRICTED); [contradiction|].
    reflexivity. }
  split; [|split; [|split]].
  - rewrite E, filter_app, !filter_map_resource. reflexivity.
  - rewrite E. apply Forall_forall. intros r Hr.
    apply filter_In in Hr. now apply nonempty_spec.
  - intros a h Ha Hh Hn. rewrite E. apply filter_In. split.
    + apply in_or_app. left.
      replace (mkResource (Some h) "link" false) with (anchor_resource a)
        by (unfold anchor_resource; now rewrite Hh).
      now apply in_map.
    + simpl. now rewrite negb_true_iff, String.eqb_neq.
  - intros img h Hi Hh Hn. rewrite E. apply filter_In. split.
    + apply in_or_app. right.
      replace (mkResource (Some h) "image" false) with (image_resource img)
        by (unfold image_resource; now rewrite Hh).
      now apply in_map.
    + simpl. now rewrite negb_true_iff, String.eqb_neq.
Qed.

End ExtractionProperties.

Lemma extractResources_links_then_images_witness :
  PipelineExamples.body <> CORS_RESTRICTED
  /\ extractResources PipelineExamples.browser PipelineExamples.body
     = [mkResource (Some PipelineExamples.link_url) "link" false;
        mkResource (Some PipelineExamples.image_url) "image" false].
Proof.
  split; [discriminate|].
  destruct (extractResources_links_then_images PipelineExamples.browser
              PipelineExamples.body ltac:(discriminate)) as (E & _).
  rewrite E. reflexivity.
Defined.

(** ** The page fetcher *)

(** C1, as stated, fails: after a non-success answer of the relay and a
    failed direct request the fetcher returns null without probing, although
    the probe would succeed; and when the relay request throws, no direct
    request is made, although it would succeed. *)
Lemma fetchHTMLContent_not_three_tiers :
  let B1 := Stub.browser Stub.no_page FetchExamples.relay_down in
  let B2 := Stub.browser Stub.no_page FetchExamples.relay_unreachable in
  let u := FetchExamples.page_url in
  (fst (fetchHTMLContent B1 u Stub.s0) = Normal None
   /\ trace (snd (fetchHTMLContent B1 u Stub.s0))
      = [EvFetch (relay_raw FetchExamples.page_enc); EvFetch (direct_get u)]
   /\ (forall h, fetch B1 h (no_cors_head u) = Some FetchExamples.opaque)
   /\ fst (three_tier_chain B1 u Stub.s0) = Normal (Some CORS_RESTRICTED))
  /\ (fst (fetchHTMLContent B2 u Stub.s0) = Normal (Some CORS_RESTRICTED)
      /\ trace (snd (fetchHTMLContent B2 u Stub.s0))
         = [EvFetch (relay_raw FetchExamples.page_enc);
            EvFetch (no_cors_head u)]
      /\ fst (three_tier_chain B2 u Stub.s0) = Normal (Some "<p>hello</p>"))
  /\ ~ (forall B u s,
          fst (fetchHTMLContent B u s) = fst (three_tier_chain B u s)).
Proof.
  cbv zeta. split; [|split].
  - repeat split; vm_compute; reflexivity.
  - repeat split; vm_compute; reflexivity.
  - intros H.
    specialize (H (Stub.browser Stub.no_page FetchExamples.relay_down)
                  FetchExamples.page_url Stub.s0).
    vm_compute in H. discriminate H.
Qed.

Section FetcherProperties.

Variable B : Browser.

(** C1 (amended): the relay is asked first and its successful answer is
    the result.  A non-success status of the relay leads to the direct
    request only: its successful answer is the result, and its failure, by
    status or by exception, gives null without any probe.  A relay request
    that throws leads to the no-cors probe only, without a direct request:
    the restricted marker when the probe resolves, null when it rejects. *)
Theorem fetchHTMLContent_tiers (u enc : string) (s : State) :
  encodeURIComponent B u = Some enc ->
  let relay := EvFetch (relay_raw enc) in
  let direct := EvFetch (direct_get u) in
  let probe := EvFetch (no_cors_head u) in
  let out := fetchHTMLContent B u s in
  (forall r body,
      fetch B (trace s) (relay_raw enc) = Some r ->
      resp_ok r = true -> resp_text r = Some body ->
      fst out = Normal (Some body) /\ trace (snd out) = (trace s ++ [relay])%list)
  /\ (forall r d body,
         fetch B (trace s) (relay_raw enc) = Some r -> resp_ok r = false ->
         fetch B ((trace s ++ [relay])%list) (direct_get u) = Some d ->
         resp_ok d = true -> resp_text d = Some body ->
         fst out = Normal (Some body)
         /\ trace (snd out) = (trace s ++ [relay; direct])%list)
  /\ (forall r,
         fetch B (trace s) (relay_raw enc) = Some r -> resp_ok r = false ->
         (fetch B ((trace s ++ [relay])%list) (direct_get u) = None
          \/ exists d, fetch B ((trace s ++ [relay])%list) (direct_get u) = Some d
                       /\ resp_ok d = false) ->
         fst out = Normal None
         /\ trace (snd out) = (trace s ++ [relay; direct])%list)
  /\ (fetch B (trace s) (relay_raw enc) = None ->
      (forall p, fetch B ((trace s ++ [relay])%list) (no_cors_head u) = Some p ->
                 fst out = Normal (Some CORS_RESTRICTED)
                 /\ trace (snd out) = (trace s ++ [relay; probe])%list)
      /\ (fetch B ((trace s ++ [relay])%list) (no_cors_head u) = None ->
          fst out = Normal None
          /\ trace (snd out) = (trace s ++ [relay; probe])%list)).
Proof.
  intros Henc relay direct probe out.
  subst out relay direct probe.
  unfold fetchHTMLContent. unfold_js. rewrite Henc. simpl.
  split; [|split; [|split]].
  - intros r body Hr Hok Hbody. rewrite Hr, Hok, Hbody. simpl. auto.
  - intros r d body Hr Hok Hd Hdok Hbody.
    rewrite Hr, Hok. simpl. rewrite Hd, Hdok, Hbody. simpl.
    rewrite <- app_assoc. auto.
  - intros r Hr Hok [Hd | (d & Hd & Hdok)]; rewrite Hr, Hok; simpl;
      rewrite Hd; try rewrite Hdok; simpl; rewrite <- app_assoc; auto.
  - intros Hr. rewrite Hr. simpl. split.
    + intros p Hp. rewrite Hp. simpl. rewrite <- app_assoc. auto.
    + intros Hp. rewrite Hp. simpl. rewrite <- app_assoc. auto.
Qed.

(** The fetcher never throws and touches neither the accumulator nor the
    error banner. *)
Lemma fetchHTMLContent_returns (u : string) (s : State) :
  exists html s',
    fetchHTMLContent B u s = (Normal html, s')
    /\ validationResults s' = validationResults s
    /\ errorMessage s' = errorMessage s.
Proof.
  unfold fetchHTMLContent. unfold_js. repeat observe; simpl; eauto.
Qed.

End FetcherProperties.

Lemma fetchHTMLContent_tiers_witness :
  let B := Stub.browser Stub.no_page FetchExamples.relay_down in
  let u := FetchExamples.page_url in
  encodeURIComponent B u = Some FetchExamples.page_enc
  /\ fst (fetchHTMLContent B u Stub.s0) = Normal None
  /\ trace (snd (fetchHTMLContent B u Stub.s0))
     = [EvFetch (relay_raw FetchExamples.page_enc); EvFetch (direct_get u)].
Proof.
  cbv zeta. split; [reflexivity|].
  destruct (fetchHTMLContent_tiers
              (Stub.browser Stub.no_page FetchExamples.relay_down)
              FetchExamples.page_url FetchExamples.page_enc Stub.s0
              eq_refl) as (_ & _ & H & _).
  apply (H (mkResponse false 500 "Internal Server Error" (Some "") None));
    [reflexivity | reflexivity | left; reflexivity].
Defined.

(** ** The validator *)

Section ValidatorProperties.

Variable B : Browser.

Lemma probeResource_returns (absoluteUrl : string) (s : State) :
  exists st rs s',
    probeResource B absoluteUrl s = (Normal (st, rs), s')
    /\ resource_status st
    /\ validationResults s' = validationResults s
    /\ errorMessage s' = errorMessage s.
Proof.
  unfold probeResource, checkWithProxy, checkDirect, resource_status.
  unfold_js. repeat observe; simpl; eauto 10.
Qed.

(** One iteration of the resource loop appends exactly one record, with a
    resource status, and never throws. *)
Lemma validateResource_appends (source : string) (r : Resource) (s : State) :
  exists rec s',
    validateResource B source r s = (Normal tt, s')
    /\ validationResults s' = (validationResults s ++ [rec])%list
    /\ sourceUrl rec = source
    /\ resource_status (status rec)
    /\ errorMessage s' = errorMessage s.
Proof.
  unfold validateResource.
  destruct (URL B (string_of_nullable (url r)) (Some source)) as [abs|] eqn:EU.
  - destruct (isValidURL B abs) eqn:EV.
    + destruct (probeResource_returns abs s) as (st & rs & s1 & E & Hst & Hv & He).
      unfold_js. simpl. rewrite EV. simpl. rewrite E. simpl.
      eexists. eexists. split; [reflexivity|]. simpl.
      rewrite Hv, He. split; [reflexivity|]. simpl. auto.
    + unfold_js. simpl. rewrite EV. simpl.
      eexists. eexists. split; [reflexivity|]. simpl.
      unfold resource_status. split; [reflexivity|]. simpl. auto.
  - unfold_js. simpl.
    eexists. eexists. split; [reflexivity|]. simpl.
    unfold resource_status. split; [reflexivity|]. simpl. auto.
Qed.

Lemma forEach_validateResource (source : string) (resources : list Resource) :
  forall s,
  exists added s',
    forEach resources (validateResource B source) s = (Normal tt, s')
    /\ validationResults s' = (validationResults s ++ added)%list
    /\ length added = length resources
    /\ Forall (fun rec => sourceUrl rec = source
                          /\ resource_status (status rec)) added
    /\ errorMessage s' = errorMessage s.
Proof.
  induction resources as [|r rest IH]; intros s; simpl.
  - exists [], s. rewrite app_nil_r. unfold ret. auto.
  - destruct (validateResource_appends source r s)
      as (rec & s1 & E1 & Hv1 & Hs1 & Hst1 & He1).
    destruct (IH s1) as (added & s2 & E2 & Hv2 & Hl & Hall & He2).
    exists (rec :: added), s2.
    rewrite (bind_normal _ _ _ _ _ E1), E2.
    split; [reflexivity|]. split; [|split; [|split]].
    + rewrite Hv2, Hv1, <- app_assoc. reflexivity.
    + simpl. now rewrite Hl.
    + constructor; auto.
    + congruence.
Qed.

(** C6: on the single restricted marker the validator appends the one
    Unknown record for the source page, on the empty list the one Empty
    record, and in both cases it returns at once: no request, no pause. *)
Theorem validateResources_short_circuits (source : string) (s : State) :
  extractResources B CORS_RESTRICTED = [restricted_marker]
  /\ validateResources B source [restricted_marker] s
     = (Normal tt,
        mkState (validationResults s
                   ++ [mkResult source (Some source) "URL" "Unknown"
                                "CORS restricted - cannot access content"])
                (errorMessage s) (console s) (trace s))
  /\ validateResources B source [] s
     = (Normal tt,
        mkState (validationResults s
                   ++ [mkResult source (Some source) "URL" "Empty"
                                "No links or images found"])
                (errorMessage s) (console s) (trace s)).
Proof.
  repeat split.
Qed.

(** C2 (the code departs from it): a reference that does not resolve
    makes the URL constructor throw before the validity check is reached,
    so the outer handler files the resource as Broken under the reason
    [Error processing resource], not [Invalid URL format]; no request is
    made for it and the loop goes on after the pause. *)
Theorem validateResource_unresolvable (source : string) (r : Resource)
  (s : State) :
  URL B (string_of_nullable (url r)) (Some source) = None ->
  validateResource B source r s
  = (Normal tt,
     mkState (validationResults s
                ++ [mkResult source (url r) (type r) "Broken"
                             "Error processing resource"])
             (errorMessage s)
             (console s ++ ["General error processing "
                              ++ string_of_nullable (url r) ++ ":"])
             (trace s ++ [EvDelay 100])).
Proof.
  intros E. unfold validateResource. unfold_js. rewrite E. reflexivity.
Qed.

(** C5 (amended): for a resource that resolves to a valid absolute URL,
    probed through the relay: a successful relay response whose status
    object carries a numeric code in [200,400) gives Valid; a code outside
    that range, or an unsuccessful relay response, gives Broken with the
    code, as the script prints the number, in the reason; an answer that
    is not null and has no (truthy) status field gives Broken with
    [unknown] in the reason; when the relay request throws, or its body
    does not parse as JSON, or parses to null, whose status cannot be
    read, the no-cors probe of the absolute URL decides between Likely
    Valid and Broken. *)
Theorem validateResource_relay_classification (source : string)
  (r : Resource) (s : State) (abs enc : string) :
  URL B (string_of_nullable (url r)) (Some source) = Some abs ->
  isValidURL B abs = true ->
  encodeURIComponent B abs = Some enc ->
  let relay := EvFetch (relay_head enc) in
  let probe := EvFetch (no_cors_head abs) in
  let logged := "Error checking resource with proxy: " ++ abs in
  (forall resp data st x,
      fetch B (trace s) (relay_head enc) = Some resp ->
      resp_json resp = Some data ->
      getProp data "status" = Some st -> truthy st = true ->
      getProp st "http_code" = Some (VNum x) ->
      (resp_ok resp = true ->
       PrimFloat.leb 200 x && PrimFloat.ltb x 400 = true ->
       records B source r s abs "Valid" "" [] [relay; EvDelay 100])
      /\ (resp_ok resp && (PrimFloat.leb 200 x && PrimFloat.ltb x 400) = false ->
          records B source r s abs "Broken"
                  ("Resource unavailable (HTTP " ++ NumberToString B x ++ ")")
                  [] [relay; EvDelay 100]))
  /\ (forall resp data st,
         fetch B (trace s) (relay_head enc) = Some resp ->
         resp_json resp = Some data ->
         getProp data "status" = Some st -> truthy st = false ->
         records B source r s abs "Broken" "Resource unavailable (HTTP unknown)"
                 [] [relay; EvDelay 100])
  /\ (fetch B (trace s) (relay_head enc) = None
      \/ (exists resp, fetch B (trace s) (relay_head enc) = Some resp
                       /\ resp_json resp = None)
      \/ (exists resp data, fetch B (trace s) (relay_head enc) = Some resp
                            /\ resp_json resp = Some data
                            /\ getProp data "status" = None) ->
      (forall p, fetch B (trace s ++ [relay]) (no_cors_head abs) = Some p ->
                 records B source r s abs "Likely Valid"
                         "CORS restrictions prevent full validation"
                         [logged] [relay; probe; EvDelay 100])
      /\ (fetch B (trace s ++ [relay]) (no_cors_head abs) = None ->
          records B source r s abs "Broken"
                  "Network error or resource unavailable"
                  [logged] [relay; probe; EvDelay 100])).
Proof.
  intros EU EV Eenc relay probe logged. subst relay probe logged.
  assert (Hstart : forall k : string -> M Iteration,
            (absoluteUrl <- of_option TypeError
               (URL B (string_of_nullable (url r)) (Some source)) ;;
             if negb (isValidURL B absoluteUrl) then k absoluteUrl
             else
               sr <- probeResource B absoluteUrl ;;
               push (mkResult source (Some absoluteUrl) (type r)
                              (fst sr) (snd sr)) ;;;
               ret FallThrough) s
            = (sr <- probeResource B abs ;;
               push (mkResult source (Some abs) (type r) (fst sr) (snd sr)) ;;;
               ret FallThrough) s).
  { intros k. rewrite EU. unfold of_option, bind, ret. now rewrite EV. }
  unfold records, validateResource.
  split; [|split].
  - intros resp data st x Hf Hj Hs Ht Hc.
    assert (Hp : forall b : bool,
              resp_ok resp && PrimFloat.leb 200 x && PrimFloat.ltb x 400 = b ->
              probeResource B abs s
              = (Normal (if b then ("Valid", "")
                         else ("Broken", "Resource unavailable (HTTP "
                                           ++ NumberToString B x ++ ")")),
                 mkState (validationResults s) (errorMessage s) (console s)
                         (trace s ++ [EvFetch (relay_head enc)]))).
    { intros b Hb. unfold probeResource, checkWithProxy. unfold_js.
      rewrite Eenc. simpl. rewrite Hf. simpl. rewrite Hj. simpl.
      rewrite Hs. simpl. rewrite Ht. simpl. rewrite Hc. simpl.
      unfold js_ge, js_lt. simpl. rewrite Hb. now destruct b. }
    split.
    + intros Hok Hn.
      unfold bind at 1, try_catch at 1. rewrite Hstart.
      rewrite (bind_normal _ _ _ _ _
                 (Hp true ltac:(rewrite Hok, <- andb_assoc; exact Hn))).
      unfold_js. simpl. now rewrite app_nil_r, <- app_assoc.
    + intros Hn.
      unfold bind at 1, try_catch at 1. rewrite Hstart.
      assert (E : resp_ok resp && PrimFloat.leb 200 x && PrimFloat.ltb x 400
                  = false).
      { rewrite <- andb_assoc. exact Hn. }
      rewrite (bind_normal _ _ _ _ _ (Hp false E)).
      unfold_js. simpl. now rewrite app_nil_r, <- app_assoc.
  - intros resp data st Hf Hj Hs Ht.
    unfold bind at 1, try_catch at 1. rewrite Hstart.
    unfold probeResource, checkWithProxy. unfold_js.
    rewrite Eenc. simpl. rewrite Hf. simpl. rewrite Hj. simpl.
    rewrite Hs. simpl. rewrite Ht. simpl.
    now rewrite app_nil_r, <- app_assoc.
  - intros Hthrow.
    split; [intros p Hp | intros Hp];
      unfold bind at 1, try_catch at 1; rewrite Hstart;
      unfold probeResource, checkWithProxy, checkDirect; unfold_js;
      rewrite Eenc; simpl;
      destruct Hthrow as [Hf | [(resp & Hf & Hj) | (resp & data & Hf & Hj & Hs)]];
      rewrite Hf; simpl; try (rewrite Hj; simpl); try (rewrite Hs; simpl);
      rewrite Hp; simpl; rewrite <- !app_assoc; reflexivity.
Qed.

End ValidatorProperties.

Lemma validateResource_unresolvable_witness :
  let B := Stub.browser Stub.no_page FetchExamples.offline in
  URL B "http://[" (Some ValidatorExamples.source) = None
  /\ validateResource B ValidatorExamples.source ValidatorExamples.bad_link
       Stub.s0
     = (Normal tt,
        mkState [mkResult ValidatorExamples.source (Some "http://[") "link"
                          "Broken" "Error processing resource"]
                "" ["General error processing http://[:"] [EvDelay 100]).
Proof.
  split; [reflexivity|].
  apply (validateResource_unresolvable
           (Stub.browser Stub.no_page FetchExamples.offline)
           ValidatorExamples.source ValidatorExamples.bad_link Stub.s0).
  reflexivity.
Defined.

(** C5, as stated, fails on a relay answer whose JSON body is null: it
    has no status field, yet reading its status throws, the probe is
    made, and the record is Likely Valid instead of Broken. *)
Lemma relay_null_is_probed :
  let B := Stub.browser Stub.no_page ValidatorExamples.relay_says_null in
  fetch B [] (relay_head ValidatorExamples.image_enc)
  = Some (mkResponse true 200 "OK" None (Some VNull))
  /\ getProp VNull "status" = None
  /\ validateResource B ValidatorExamples.source ValidatorExamples.image
       Stub.s0
     = (Normal tt,
        mkState [mkResult ValidatorExamples.source
                          (Some ValidatorExamples.image_url) "image"
                          "Likely Valid"
                          "CORS restrictions prevent full validation"]
                ""
                ["Error checking resource with proxy: "
                   ++ ValidatorExamples.image_url]
                [EvFetch (relay_head ValidatorExamples.image_enc);
                 EvFetch (no_cors_head ValidatorExamples.image_url);
                 EvDelay 100])
  /\ ~ (forall B source r s abs enc resp data,
          URL B (string_of_nullable (url r)) (Some source) = Some abs ->
          isValidURL B abs = true ->
          encodeURIComponent B abs = Some enc ->
          fetch B (trace s) (relay_head enc) = Some resp ->
          resp_json resp = Some data ->
          (forall st, getProp data "status" = Some st -> truthy st = false) ->
          records B source r s abs "Broken"
                  "Resource unavailable (HTTP unknown)" []
                  [EvFetch (relay_head enc); EvDelay 100]).
Proof.
  cbv zeta. split; [reflexivity|]. split; [reflexivity|].
  split; [reflexivity|].
  intros H.
  specialize (H (Stub.browser Stub.no_page ValidatorExamples.relay_says_null)
                ValidatorExamples.source ValidatorExamples.image Stub.s0
                ValidatorExamples.image_url ValidatorExamples.image_enc
                (mkResponse true 200 "OK" None (Some VNull)) VNull
                eq_refl eq_refl eq_refl eq_refl eq_refl).
  unfold records in H.
  assert (Hlack : forall st, getProp VNull "status" = Some st ->
                             truthy st = false) by discriminate.
  specialize (H Hlack). vm_compute in H. discriminate H.
Qed.

Lemma validateResource_relay_classification_witness :
  let B := Stub.browser Stub.no_page ValidatorExamples.relay_says_200 in
  URL B ValidatorExamples.image_url (Some ValidatorExamples.source)
  = Some ValidatorExamples.image_url
  /\ isValidURL B ValidatorExamples.image_url = true
  /\ encodeURIComponent B ValidatorExamples.image_url
     = Some ValidatorExamples.image_enc
  /\ records B ValidatorExamples.source ValidatorExamples.image Stub.s0
       ValidatorExamples.image_url "Valid" "" []
       [EvFetch (relay_head ValidatorExamples.image_enc); EvDelay 100].
Proof.
  cbv zeta. repeat (split; [reflexivity|]).
  destruct (validateResource_relay_classification
              (Stub.browser Stub.no_page ValidatorExamples.relay_says_200)
              ValidatorExamples.source ValidatorExamples.image Stub.s0
              ValidatorExamples.image_url ValidatorExamples.image_enc
              eq_refl eq_refl eq_refl) as (H & _).
  destruct (H (ValidatorExamples.relay_answer 200)
              (VObj [("contents", VNull);
                     ("status", VObj [("url", VStr ValidatorExamples.image_url);
                                      ("http_code", VNum 200)])])
              (VObj [("url", VStr ValidatorExamples.image_url);
                     ("http_code", VNum 200)])
              200%float eq_refl eq_refl eq_refl eq_refl eq_refl) as (Hv & _).
  apply Hv; reflexivity.
Defined.

(** ** The run over the source pages *)

Section PipelineProperties.

Variable B : Browser.

Lemma extractResources_not_flagged (html : string) :
  html <> CORS_RESTRICTED ->
  Forall (fun r => corsRestricted r = false) (extractResources B html).
Proof.
  intros Hne. unfold extractResources.
  destruct (String.eqb_spec html CORS_RESTRICTED); [contradiction|].
  apply Forall_forall. intros r Hr. apply filter_In in Hr. destruct Hr as [Hr _].
  apply in_app_or in Hr. destruct Hr as [Hr | Hr];
    apply in_map_iff in Hr; destruct Hr as (x & <- & _); reflexivity.
Qed.

Lemma validateResources_loops (source : string) (resources : list Resource)
  (s : State) :
  Forall (fun r => corsRestricted r = false) resources ->
  resources <> [] ->
  validateResources B source resources s
  = forEach resources (validateResource B source) s.
Proof.
  intros Hall Hne. unfold validateResources.
  destruct resources as [|r rest]; [congruence|].
  inversion Hall as [|? ? Hr _]; subst. simpl. rewrite Hr.
  now rewrite andb_false_r.
Qed.



Lemma sourceWork_unfetched (source : string) (s s1 : State) (html : option string) :
  fetchHTMLContent B source s = (Normal html, s1) ->
  html_truthy html = false ->
  sourceWork B source s
  = (Normal tt,
     mkState (validationResults s1)
             ("Failed to fetch content from: " ++ source)
             (console s1) (trace s1)).
Proof.
  intros E Hf. unfold sourceWork. rewrite (bind_normal _ _ _ _ _ E).
  destruct html as [page|]; [rewrite Hf|]; reflexivity.
Qed.

Lemma sourceWork_fetched (source page : string) (s s1 : State) :
  fetchHTMLContent B source s = (Normal (Some page), s1) ->
  page <> "" ->
  sourceWork B source s
  = validateResources B source (extractResources B page) s1.
Proof.
  intros E Hne. unfold sourceWork. rewrite (bind_normal _ _ _ _ _ E).
  unfold html_truthy, nonempty.
  destruct (String.eqb_spec page ""); [contradiction | reflexivity].
Qed.

Lemma processSource_of_work (source : string) (s s' : State) :
  sourceWork B source s = (Normal tt, s') ->
  processSource B source s = (Normal tt, s').
Proof.
  intros E. unfold processSource, guarded. now apply try_catch_normal.
Qed.

End PipelineProperties.

(** C3, as stated, fails on an unreachable source page: the run files no
    record at all for it, not one. *)
Lemma unreachable_source_adds_no_record :
  let B := PipelineExamples.offline in
  let u := PipelineExamples.source in
  fst (fetchHTMLContent B u Stub.s0) = Normal None
  /\ validationResults (snd (processSource B u Stub.s0)) = []
  /\ length (validationResults (snd (processSource B u Stub.s0))) <> 1
  /\ ~ (forall B source s,
          fst (fetchHTMLContent B source s) = Normal None ->
          length (validationResults (snd (processSource B source s)))
          = S (length (validationResults s))).
Proof.
  cbv zeta. split; [reflexivity|]. split; [reflexivity|].
  split; [discriminate|].
  intros H.
  specialize (H PipelineExamples.offline PipelineExamples.source Stub.s0
                eq_refl).
  vm_compute in H. discriminate H.
Qed.

(** C4, as stated, fails on a list of more than ten entries with an
    invalid one: the count is checked first and the invalid entry is not
    reported. *)
Lemma validateURLs_count_checked_first :
  let B := PipelineExamples.offline in
  let urls := PipelineExamples.eleven in
  let s' := snd (validateURLs B urls Stub.s0) in
  In "not a url" urls
  /\ isValidURL B "not a url" = false
  /\ errorMessage s' = "Maximum 10 URLs allowed."
  /\ is_substring "not a url" (errorMessage s') = false
  /\ ~ (forall B urls s,
          urls = [] \/ 10 < length urls
          \/ (exists u, In u urls /\ isValidURL B u = false) ->
          forall u, In u urls -> isValidURL B u = false ->
                    is_substring u (errorMessage (snd (validateURLs B urls s)))
                    = true).
Proof.
  cbv zeta. split; [simpl; tauto|]. split; [reflexivity|].
  split; [reflexivity|]. split; [reflexivity|].
  intros H.
  assert (Hin : In "not a url" PipelineExamples.eleven) by (simpl; tauto).
  assert (Hlen : 10 < length PipelineExamples.eleven) by (simpl; lia).
  specialize (H PipelineExamples.offline PipelineExamples.eleven Stub.s0
                (or_intror (or_introl Hlen)) "not a url" Hin eq_refl).
  vm_compute in H. discriminate H.
Qed.

Section PipelineTheorems.

Variable B : Browser.

(** C3 (amended): a source page whose fetch returns null gets no record;
    a page with a non-empty body gets exactly one record when it is
    restricted (Unknown) or has no resource (Empty), and otherwise exactly
    one record per extracted resource, each with status Valid, Broken or
    Likely Valid. *)
Theorem processSource_record_count (source : string) (s : State) :
  exists html s1 added,
    fetchHTMLContent B source s = (Normal html, s1)
    /\ fst (processSource B source s) = Normal tt
    /\ validationResults (snd (processSource B source s))
       = (validationResults s ++ added)%list
    /\ match html with
       | None => added = []
       | Some page =>
           page <> "" ->
           let resources := extractResources B page in
           (page = CORS_RESTRICTED ->
            added = [mkResult source (Some source) "URL" "Unknown"
                              "CORS restricted - cannot access content"])
           /\ (resources = [] ->
               added = [mkResult source (Some source) "URL" "Empty"
                                 "No links or images found"])
           /\ (page <> CORS_RESTRICTED -> resources <> [] ->
               length added = length resources
               /\ Forall (fun rec => sourceUrl rec = source
                                     /\ resource_status (status rec)) added)
       end.
Proof.
  destruct (fetchHTMLContent_returns B source s) as (html & s1 & E & Hv & He).
  exists html, s1.
  destruct html as [page|].
  - destruct (String.eqb_spec page "") as [-> | Hne].
    + exists []. split; [assumption|].
      rewrite (processSource_of_work B source s _
                 (sourceWork_unfetched B source s s1 (Some "") E eq_refl)).
      simpl. rewrite app_nil_r. split; [reflexivity|].
      split; [assumption|]. intros Habs. exfalso; now apply Habs.
    + pose proof (sourceWork_fetched B source page s s1 E Hne) as Ew.
      destruct (String.eqb_spec page CORS_RESTRICTED) as [-> | Hnr].
      * eexists. split; [assumption|].
        rewrite (processSource_of_work B source s _ Ew).
        simpl. rewrite Hv. split; [reflexivity|]. split; [reflexivity|].
        intros _. split; [reflexivity|]. split; [discriminate|].
        intros Habs. exfalso; now apply Habs.
      * destruct (extractResources B page) as [|r rest] eqn:Er.
        -- eexists. split; [assumption|].
           rewrite (processSource_of_work B source s _ Ew).
           simpl. rewrite Hv. split; [reflexivity|]. split; [reflexivity|].
           intros _. split; [contradiction|]. split; [reflexivity|].
           intros _ Habs. exfalso; now apply Habs.
        -- pose proof (extractResources_not_flagged B page Hnr) as Hflag.
           rewrite Er in Hflag.
           rewrite (validateResources_loops B source (r :: rest) s1 Hflag)
             in Ew by discriminate.
           destruct (forEach_validateResource B source (r :: rest) s1)
             as (added & s2 & E2 & Hv2 & Hl & Hall & _).
           rewrite E2 in Ew.
           exists added. split; [assumption|].
           rewrite (processSource_of_work B source s _ Ew).
           simpl. rewrite Hv2, Hv. split; [reflexivity|].
           split; [reflexivity|].
           intros _. split; [contradiction|]. split; [discriminate|].
           intros _ _. split; assumption.
  - exists []. split; [assumption|].
    rewrite (processSource_of_work B source s _
               (sourceWork_unfetched B source s s1 None E eq_refl)).
    simpl. rewrite app_nil_r. repeat split; assumption.
Qed.


End PipelineTheorems.

Section PreconditionProperties.

Variable B : Browser.

(** C4 (amended): an empty list, a list of more than ten entries and a
    list with an entry that is not a URL are each rejected with an error
    message, with no record and before any request; the empty list and
    the long list by their own message, and a list of one to ten entries
    by a message that names all its invalid entries together. *)
Theorem validateURLs_rejects (urls : list string) (s : State) :
  urls = [] \/ 10 < length urls
  \/ (exists u, In u urls /\ isValidURL B u = false) ->
  let invalid := filter (fun u => negb (isValidURL B u)) urls in
  let s' := snd (validateURLs B urls s) in
  fst (validateURLs B urls s) = Normal tt
  /\ trace s' = trace s
  /\ console s' = console s
  /\ validationResults s' = []
  /\ (urls = [] -> errorMessage s' = "Please enter at least one URL.")
  /\ (10 < length urls -> errorMessage s' = "Maximum 10 URLs allowed.")
  /\ (urls <> [] -> length urls <= 10 ->
      errorMessage s' = "Invalid URL format: " ++ String.concat ", " invalid).
Proof.
  intros Hbad invalid s'. subst invalid s'.
  unfold validateURLs, clearPrevious. unfold_js.
  destruct urls as [|u0 rest].
  - simpl. repeat split; try reflexivity; intros;
      try discriminate; try (simpl in *; lia); congruence.
  - change (Nat.eqb (length (u0 :: rest)) 0) with false. cbv iota.
    destruct (Nat.ltb_spec 10 (length (u0 :: rest))) as [Hlong | Hshort].
    + simpl. repeat split; try reflexivity; intros;
        try discriminate; simpl in *; lia.
    + assert (Hinv : Nat.ltb 0 (length (filter (fun u => negb (isValidURL B u))
                                            (u0 :: rest))) = true).
      { destruct Hbad as [H | [H | (u & Hin & Hu)]];
          [discriminate | lia |].
        apply Nat.ltb_lt.
        assert (Hf : In u (filter (fun u => negb (isValidURL B u))
                                  (u0 :: rest)))
          by (apply filter_In; split; [assumption | now rewrite Hu]).
        destruct (filter _ (u0 :: rest)); [contradiction | simpl; lia]. }
      rewrite Hinv. simpl. repeat split; try reflexivity; intros;
        try discriminate; simpl in *; lia.
Qed.

End PreconditionProperties.

(** ** The in-band restricted marker *)

Section SentinelProperties.

Variable B : Browser.

Lemma fetched_through_relay (u enc body : string) (s : State) (r : Response) :
  encodeURIComponent B u = Some enc ->
  fetch B (trace s) (relay_raw enc) = Some r ->
  resp_ok r = true -> resp_text r = Some body ->
  exists s1, fetchHTMLContent B u s = (Normal (Some body), s1)
             /\ validationResults s1 = validationResults s.
Proof.
  intros Henc Hr Hok Hbody. unfold fetchHTMLContent. unfold_js.
  rewrite Henc. simpl. rewrite Hr, Hok, Hbody. simpl. eauto.
Qed.

Lemma fetched_directly (u enc body : string) (s : State) (r d : Response) :
  encodeURIComponent B u = Some enc ->
  fetch B (trace s) (relay_raw enc) = Some r -> resp_ok r = false ->
  fetch B (trace s ++ [EvFetch (relay_raw enc)]) (direct_get u) = Some d ->
  resp_ok d = true -> resp_text d = Some body ->
  exists s1, fetchHTMLContent B u s = (Normal (Some body), s1)
             /\ validationResults s1 = validationResults s.
Proof.
  intros Henc Hr Hok Hd Hdok Hbody. unfold fetchHTMLContent. unfold_js.
  rewrite Henc. simpl. rewrite Hr, Hok. simpl. rewrite Hd, Hdok, Hbody.
  simpl. eauto.
Qed.

Lemma fetched_by_probe (u enc : string) (s : State) (p : Response) :
  encodeURIComponent B u = Some enc ->
  fetch B (trace s) (relay_raw enc) = None ->
  fetch B (trace s ++ [EvFetch (relay_raw enc)]) (no_cors_head u) = Some p ->
  exists s1, fetchHTMLContent B u s = (Normal (Some CORS_RESTRICTED), s1)
             /\ validationResults s1 = validationResults s.
Proof.
  intros Henc Hr Hp. unfold fetchHTMLContent. unfold_js.
  rewrite Henc. simpl. rewrite Hr. simpl. rewrite Hp. simpl. eauto.
Qed.

Lemma restricted_content_record (source : string) (s s1 : State) :
  fetchHTMLContent B source s = (Normal (Some CORS_RESTRICTED), s1) ->
  validationResults s1 = validationResults s ->
  validationResults (snd (processSource B source s))
  = (validationResults s
       ++ [mkResult source (Some source) "URL" "Unknown"
                    "CORS restricted - cannot access content"])%list.
Proof.
  intros E Hv.
  pose proof (sourceWork_fetched B source CORS_RESTRICTED s s1 E
                ltac:(discriminate)) as Ew.
  rewrite (processSource_of_work B source s _ Ew). simpl. now rewrite Hv.
Qed.

(** C10: the restricted marker is an ordinary string.  A page whose body,
    read through the relay or directly, is exactly that string gets the
    single Unknown record of a restricted page, the same record as a page
    that could only be probed. *)
Theorem sentinel_body_reads_as_restricted (source enc : string) (s : State) :
  encodeURIComponent B source = Some enc ->
  let relay := EvFetch (relay_raw enc) in
  let after := validationResults (snd (processSource B source s)) in
  let restricted :=
    (validationResults s
       ++ [mkResult source (Some source) "URL" "Unknown"
                    "CORS restricted - cannot access content"])%list in
  (forall r,
      fetch B (trace s) (relay_raw enc) = Some r ->
      resp_ok r = true -> resp_text r = Some CORS_RESTRICTED ->
      fst (fetchHTMLContent B source s) = Normal (Some CORS_RESTRICTED)
      /\ after = restricted)
  /\ (forall r d,
         fetch B (trace s) (relay_raw enc) = Some r -> resp_ok r = false ->
         fetch B (trace s ++ [relay]) (direct_get source) = Some d ->
         resp_ok d = true -> resp_text d = Some CORS_RESTRICTED ->
         fst (fetchHTMLContent B source s) = Normal (Some CORS_RESTRICTED)
         /\ after = restricted)
  /\ (forall p,
         fetch B (trace s) (relay_raw enc) = None ->
         fetch B (trace s ++ [relay]) (no_cors_head source) = Some p ->
         fst (fetchHTMLContent B source s) = Normal (Some CORS_RESTRICTED)
         /\ after = restricted).
Proof.
  intros Henc relay after restricted. subst relay after restricted.
  split; [|split].
  - intros r Hr Hok Hbody.
    destruct (fetched_through_relay source enc _ s r Henc Hr Hok Hbody)
      as (s1 & E & Hv).
    split; [now rewrite E | now apply restricted_content_record with s1].
  - intros r d Hr Hok Hd Hdok Hbody.
    destruct (fetched_directly source enc _ s r d Henc Hr Hok Hd Hdok Hbody)
      as (s1 & E & Hv).
    split; [now rewrite E | now apply restricted_content_record with s1].
  - intros p Hr Hp.
    destruct (fetched_by_probe source enc s p Henc Hr Hp) as (s1 & E & Hv).
    split; [now rewrite E | now apply restricted_content_record with s1].
Qed.

End SentinelProperties.

(** ** The properties on concrete runs *)

(** The run of the page with one link and one image: the link record
    comes first, Broken with the relayed 404, then the image, Valid. *)
Example run_of_example_page :
  validateURLs PipelineExamples.browser [PipelineExamples.source] Stub.s0
  = (Normal tt,
     mkState
       [mkResult PipelineExamples.source (Some PipelineExamples.link_url)
                 "link" "Broken" "Resource unavailable (HTTP 404)";
        mkResult PipelineExamples.source (Some PipelineExamples.image_url)
                 "image" "Valid" ""]
       "" []
       [EvFetch (relay_raw PipelineExamples.source_enc);
        EvFetch (relay_head "https%3A%2F%2Fexample.com%2Fb");
        EvDelay 100;
        EvFetch (relay_head "https%3A%2F%2Fcdn.example.com%2Fx.png");
        EvDelay 100]).
Proof. vm_compute. reflexivity. Qed.

Lemma processSource_record_count_witness :
  length (validationResults
            (snd (processSource PipelineExamples.browser
                    PipelineExamples.source Stub.s0))) = 2.
Proof.
  destruct (processSource_record_count PipelineExamples.browser
              PipelineExamples.source Stub.s0)
    as (html & s1 & added & E & _ & Hv & Hcount).
  assert (Eh : html = Some PipelineExamples.body).
  { assert (E' : fst (fetchHTMLContent PipelineExamples.browser
                        PipelineExamples.source Stub.s0) = Normal html)
      by now rewrite E.
    vm_compute in E'. now inversion E'. }
  subst html.
  destruct (Hcount ltac:(discriminate)) as (_ & _ & Hloop).
  destruct Hloop as (Hlen & _); [discriminate | discriminate |].
  rewrite Hv. simpl. rewrite Hlen. reflexivity.
Defined.

Lemma validateURLs_rejects_witness :
  let B := PipelineExamples.offline in
  let urls := ["https://example.com/a"; "not a url"; "http://["] in
  (urls = [] \/ 10 < length urls
   \/ (exists u, In u urls /\ isValidURL B u = false))
  /\ errorMessage (snd (validateURLs B urls Stub.s0))
     = "Invalid URL format: not a url, http://["
  /\ trace (snd (validateURLs B urls Stub.s0)) = []
  /\ validationResults (snd (validateURLs B urls Stub.s0)) = [].
Proof.
  cbv zeta.
  assert (Hbad : ["https://example.com/a"; "not a url"; "http://["] = []
                 \/ 10 < length ["https://example.com/a"; "not a url";
                                 "http://["]
                 \/ (exists u, In u ["https://example.com/a"; "not a url";
                                     "http://["]
                               /\ isValidURL PipelineExamples.offline u = false)).
  { right. right. exists "not a url". split; [simpl; tauto | reflexivity]. }
  split; [exact Hbad|].
  destruct (validateURLs_rejects PipelineExamples.offline _ Stub.s0 Hbad)
    as (_ & Ht & _ & Hr & _ & _ & Hm).
  split; [|split; assumption].
  apply Hm; [discriminate | simpl; lia].
Defined.


Lemma sentinel_body_reads_as_restricted_witness :
  let B := SentinelExamples.browser in
  let u := PipelineExamples.source in
  encodeURIComponent B u = Some PipelineExamples.source_enc
  /\ fetch B [] (relay_raw PipelineExamples.source_enc)
     = Some (mkResponse true 200 "OK" (Some CORS_RESTRICTED) None)
  /\ validationResults (snd (processSource B u Stub.s0))
     = [mkResult u (Some u) "URL" "Unknown"
                 "CORS restricted - cannot access content"].
Proof.
  cbv zeta. split; [reflexivity|]. split; [reflexivity|].
  destruct (sentinel_body_reads_as_restricted SentinelExamples.browser
              PipelineExamples.source PipelineExamples.source_enc Stub.s0
              eq_refl) as (H & _).
  destruct (H (mkResponse true 200 "OK" (Some CORS_RESTRICTED) None)
              eq_refl eq_refl eq_refl) as (_ & Hr).
  exact Hr.
Defined.

(** * Further properties of the script *)

(** ** One resource *)

Lemma try_catch_throws {A} (m : M A) h s e s' :
  m s = (Throw e, s') -> try_catch m h s = h e s'.
Proof. intros E. unfold try_catch. now rewrite E. Qed.

Section ResourceSteps.

Variable B : Browser.

Lemma authoritative_needs_relay (abs : string) (h : list Event) :
  authoritative B abs h ->
  exists enc resp data st code,
    encodeURIComponent B abs = Some enc
    /\ fetch B h (relay_head enc) = Some resp
    /\ resp_json resp = Some data
    /\ getProp data "status" = Some st
    /\ getProp st "http_code" = Some code.
Proof.
  intros (enc & resp & data & st & code & H1 & H2 & _ & H4 & H5 & _ & H7 & _).
  exists enc, resp, data, st, code. auto.
Qed.

(** The handler of the inner [try]: one probe, which decides. *)
Lemma checkDirect_outcome (abs : string) (s : State) :
  exists st rs,
    checkDirect B abs s
    = (Normal (st, rs),
       mkState (validationResults s) (errorMessage s)
               (console s ++ ["Error checking resource with proxy: " ++ abs])
               (trace s ++ [EvFetch (no_cors_head abs)]))
    /\ ((st = "Likely Valid"
         /\ rs = "CORS restrictions prevent full validation"
         /\ exists p, fetch B (trace s) (no_cors_head abs) = Some p)
        \/ (st = "Broken" /\ rs = "Network error or resource unavailable")).
Proof.
  unfold checkDirect. unfold_js. simpl.
  destruct (fetch B (trace s) (no_cors_head abs)) as [p|] eqn:Ep.
  - do 2 eexists. split; [reflexivity|]. left. eauto.
  - do 2 eexists. split; [reflexivity|]. right. auto.
Qed.

(** The inner [try]: either the relay decides, after one request, or the
    block throws, after at most one request, without an authoritative
    answer. *)
Lemma checkWithProxy_outcome (abs : string) (s : State) :
  (exists st rs enc,
      checkWithProxy B abs s
      = (Normal (st, rs),
         mkState (validationResults s) (errorMessage s) (console s)
                 (trace s ++ [EvFetch (relay_head enc)]))
      /\ ((st = "Valid" /\ rs = "" /\ authoritative B abs (trace s))
          \/ (st = "Broken"
              /\ exists code,
                   rs = "Resource unavailable (HTTP " ++ code ++ ")")))
  \/ (exists e requests,
         checkWithProxy B abs s
         = (Throw e,
            mkState (validationResults s) (errorMessage s) (console s)
                    (trace s ++ map EvFetch requests))
         /\ ((encodeURIComponent B abs = None /\ requests = [])
             \/ (exists enc, encodeURIComponent B abs = Some enc
                             /\ requests = [relay_head enc]))
         /\ ~ authoritative B abs (trace s)).
Proof.
  destruct s as [vr em co tr]. unfold checkWithProxy. unfold_js. simpl.
  destruct (encodeURIComponent B abs) as [enc|] eqn:Eenc; simpl.
  2:{ right. exists URIError, []. simpl. rewrite app_nil_r.
      split; [reflexivity|]. split; [now left|].
      intros Ha. apply authoritative_needs_relay in Ha.
      destruct Ha as (? & ? & ? & ? & ? & H & _). congruence. }
  destruct (fetch B tr (relay_head enc)) as [resp|] eqn:Ef; simpl.
  2:{ right. exists TypeError, [relay_head enc]. simpl.
      split; [reflexivity|]. split; [right; exists enc; auto|].
      intros Ha. apply authoritative_needs_relay in Ha.
      destruct Ha as (? & ? & ? & ? & ? & H1 & H2 & _). congruence. }
  destruct (resp_json resp) as [data|] eqn:Ej; simpl.
  2:{ right. exists BodyError, [relay_head enc]. simpl.
      split; [reflexivity|]. split; [right; exists enc; auto|].
      intros Ha. apply authoritative_needs_relay in Ha.
      destruct Ha as (? & ? & ? & ? & ? & H1 & H2 & H3 & _). congruence. }
  destruct (getProp data "status") as [stv|] eqn:Es; simpl.
  2:{ right. exists TypeError, [relay_head enc]. simpl.
      split; [reflexivity|]. split; [right; exists enc; auto|].
      intros Ha. apply authoritative_needs_relay in Ha.
      destruct Ha as (? & ? & ? & ? & ? & H1 & H2 & H3 & H4 & _). congruence. }
  destruct (truthy stv) eqn:Et; simpl.
  2:{ left. exists "Broken", "Resource unavailable (HTTP unknown)", enc.
      split; [reflexivity|]. right. split; [reflexivity|].
      now exists "unknown". }
  destruct (getProp stv "http_code") as [code|] eqn:Ec; simpl.
  2:{ right. exists TypeError, [relay_head enc]. simpl.
      split; [reflexivity|]. split; [right; exists enc; auto|].
      intros Ha. apply authoritative_needs_relay in Ha.
      destruct Ha as (? & ? & ? & ? & ? & H1 & H2 & H3 & H4 & H5).
      congruence. }
  destruct (resp_ok resp && js_ge B code 200 && js_lt B code 400) eqn:Er.
  - left. exists "Valid", "", enc. split; [reflexivity|]. left.
    split; [reflexivity|]. split; [reflexivity|].
    rewrite <- andb_assoc in Er. apply andb_true_iff in Er.
    destruct Er as [Hok Hrange].
    exists enc, resp, data, stv, code. auto 10.
  - left. exists "Broken",
      ("Resource unavailable (HTTP "
         ++ ToString (NumberToString B) code ++ ")"), enc.
    split; [reflexivity|]. right. split; [reflexivity|].
    now exists (ToString (NumberToString B) code).
Qed.

(** The probe of a resolved resource never throws, changes neither the
    accumulator nor the error banner, makes one or two requests, and ends
    in one of the four verdicts. *)
Lemma probeResource_outcome (abs : string) (s : State) :
  exists st rs logs requests,
    probeResource B abs s
    = (Normal (st, rs),
       mkState (validationResults s) (errorMessage s) (console s ++ logs)
               (trace s ++ map EvFetch requests))
    /\ 1 <= length requests <= 2
    /\ probe_verdict B abs (trace s) st rs.
Proof.
  unfold probeResource.
  destruct (checkWithProxy_outcome abs s)
    as [(st & rs & enc & E & Hv) | (e & requests & E & Hlen & Hna)].
  - exists st, rs, [], [relay_head enc].
    rewrite (try_catch_normal _ _ _ _ _ E). simpl. rewrite app_nil_r.
    split; [reflexivity|]. split; [lia|].
    unfold probe_verdict. destruct Hv as [Hv | Hv]; auto.
  - rewrite (try_catch_throws _ _ _ _ _ E).
    destruct (checkDirect_outcome abs
                (mkState (validationResults s) (errorMessage s) (console s)
                         (trace s ++ map EvFetch requests)))
      as (st & rs & Ed & Hd).
    exists st, rs, ["Error checking resource with proxy: " ++ abs],
      (requests ++ [no_cors_head abs])%list.
    rewrite Ed. simpl. rewrite map_app, app_assoc. simpl.
    split; [reflexivity|]. split.
    { destruct Hlen as [(_ & ->) | (enc & _ & ->)]; simpl; lia. }
    unfold probe_verdict.
    destruct Hd as [(-> & -> & p & Hp) | (-> & ->)]; [|auto].
    right. right. left. split; [reflexivity|]. split; [reflexivity|].
    split; [assumption|]. simpl in Hp. exists p. unfold probed_after.
    destruct Hlen as [(Hnone & ->) | (enc & Hsome & ->)].
    + left. simpl in Hp. rewrite app_nil_r in Hp. auto.
    + right. exists enc. auto.
Qed.

End ResourceSteps.

Section ResourceLoop.

Variable B : Browser.

(** One iteration of the resource loop never throws, leaves the error
    banner alone and files exactly one record, in one of three ways. *)
Lemma validateResource_step (source : string) (r : Resource) (s : State) :
  exists rec logs evs,
    validateResource B source r s
    = (Normal tt,
       mkState (validationResults s ++ [rec]) (errorMessage s)
               (console s ++ logs) (trace s ++ evs))
    /\ resource_outcome B source r (trace s) rec logs evs.
Proof.
  unfold validateResource, resource_outcome.
  destruct (URL B (string_of_nullable (url r)) (Some source))
    as [abs|] eqn:EU.
  - destruct (isValidURL B abs) eqn:EV.
    + destruct (probeResource_outcome B abs s)
        as (st & rs & logs & requests & E & Hlen & Hv).
      exists (mkResult source (Some abs) (type r) st rs), logs,
        (map EvFetch requests ++ [EvDelay 100])%list.
      split.
      * unfold_js. simpl. rewrite EV. simpl. rewrite E. simpl.
        now rewrite app_assoc.
      * right. right. exists abs, st, rs, requests. auto 10.
    + exists (mkResult source (url r) (type r) "Broken" "Invalid URL format"),
        [], [].
      split.
      * unfold_js. simpl. rewrite EV. simpl. now rewrite !app_nil_r.
      * right. left. exists abs. auto.
  - exists (mkResult source (url r) (type r) "Broken"
                     "Error processing resource"),
      ["General error processing " ++ string_of_nullable (url r) ++ ":"],
      [EvDelay 100].
    split.
    + unfold_js. reflexivity.
    + left. auto.
Qed.

Lemma forEach_page_steps (source : string) (resources : list Resource) :
  forall s,
  exists recs logs blocks,
    forEach resources (validateResource B source) s
    = (Normal tt,
       mkState (validationResults s ++ recs) (errorMessage s)
               (console s ++ logs) (trace s ++ concat blocks))
    /\ page_steps B source resources (trace s) recs blocks.
Proof.
  induction resources as [|r rest IH]; intros s.
  - exists [], [], []. simpl. rewrite !app_nil_r. destruct s.
    split; [reflexivity | constructor].
  - destruct (validateResource_step source r s)
      as (rec & logs & evs & E & Hout).
    destruct (IH (mkState (validationResults s ++ [rec]) (errorMessage s)
                          (console s ++ logs) (trace s ++ evs)))
      as (recs & logs' & blocks & E' & Hsteps).
    exists (rec :: recs), (logs ++ logs')%list, (evs :: blocks).
    split.
    + simpl forEach. rewrite (bind_normal _ _ _ _ _ E), E'. simpl.
      now rewrite <- !app_assoc.
    + econstructor; eassumption.
Qed.

Lemma page_steps_lengths (source : string) resources h recs blocks :
  page_steps B source resources h recs blocks ->
  length recs = length resources /\ length blocks = length resources.
Proof.
  induction 1; simpl; [auto | lia].
Qed.

Lemma resource_outcome_block source r h rec logs evs :
  resource_outcome B source r h rec logs evs -> resource_block evs.
Proof.
  unfold resource_block.
  intros [(_ & _ & ->) | [(abs & _ & _ & _ & _ & ->)
                         | (abs & st & rs & rq & _ & _ & _ & -> & Hl & _)]].
  - right. exists []. simpl. split; [reflexivity | lia].
  - now left.
  - right. exists rq. split; [reflexivity | lia].
Qed.

Lemma page_steps_blocks (source : string) resources h recs blocks :
  page_steps B source resources h recs blocks ->
  Forall resource_block blocks.
Proof.
  induction 1; constructor; eauto using resource_outcome_block.
Qed.

Lemma count_fetches_app (a b : list Event) :
  count_fetches (a ++ b) = count_fetches a + count_fetches b.
Proof. unfold count_fetches. now rewrite filter_app, length_app. Qed.

Lemma count_delays_app (a b : list Event) :
  count_delays (a ++ b) = count_delays a + count_delays b.
Proof. unfold count_delays. now rewrite filter_app, length_app. Qed.

Lemma count_fetches_requests (requests : list Request) :
  count_fetches (map EvFetch requests) = length requests
  /\ count_delays (map EvFetch requests) = 0.
Proof.
  unfold count_fetches, count_delays.
  induction requests as [|q rest [IH1 IH2]]; simpl; auto.
Qed.

Lemma resource_block_counts (evs : list Event) :
  resource_block evs -> count_fetches evs <= 2 /\ count_delays evs <= 1.
Proof.
  intros [-> | (rq & -> & Hl)]; [simpl; unfold count_fetches, count_delays;
                                   simpl; lia|].
  rewrite count_fetches_app, count_delays_app.
  destruct (count_fetches_requests rq) as [-> ->].
  unfold count_fetches, count_delays. simpl. lia.
Qed.

Lemma blocks_counts (blocks : list (list Event)) :
  Forall resource_block blocks ->
  count_fetches (concat blocks) <= 2 * length blocks
  /\ count_delays (concat blocks) <= length blocks.
Proof.
  induction 1 as [|evs rest Hb _ [IH1 IH2]]; simpl.
  - unfold count_fetches, count_delays. simpl. lia.
  - rewrite count_fetches_app, count_delays_app.
    destruct (resource_block_counts evs Hb). lia.
Qed.

End ResourceLoop.

Section ResourceTheorems.

Variable B : Browser.

Lemma probe_verdict_reason (abs : string) (h : list Event) (st rs : string) :
  probe_verdict B abs h st rs ->
  rs <> "Invalid URL format" /\ rs <> "Error processing resource"
  /\ resource_status st.
Proof.
  unfold probe_verdict, resource_status.
  intros [(-> & -> & _) | [(-> & code & ->) | [(-> & -> & _) | (-> & ->)]]];
    repeat split; try discriminate; auto.
Qed.

Lemma last_record (recs : list ValidationResult) (a b : ValidationResult) :
  (recs ++ [a])%list = (recs ++ [b])%list -> a = b.
Proof.
  intros H. apply app_inj_tail in H. tauto.
Qed.

(** X1: the verdicts are sound.  A record is Valid only when the relay
    answered the status request of this iteration for the resolved URL
    with a success and a status code in [200,400); it is Likely Valid only
    when no such answer came and the no-cors probe that this iteration
    made of the resolved URL, right after its relay request if it made
    one, resolved. *)
Theorem status_verdicts_are_sound (source : string) (r : Resource)
  (s : State) (rec : ValidationResult) :
  validationResults (snd (validateResource B source r s))
  = (validationResults s ++ [rec])%list ->
  (status rec = "Valid" ->
   exists abs,
     URL B (string_of_nullable (url r)) (Some source) = Some abs
     /\ resultUrl rec = Some abs
     /\ authoritative B abs (trace s))
  /\ (status rec = "Likely Valid" ->
      exists abs,
        URL B (string_of_nullable (url r)) (Some source) = Some abs
        /\ resultUrl rec = Some abs
        /\ ~ authoritative B abs (trace s)
        /\ exists p, probed_after B abs (trace s) p).
Proof.
  intros Hrec.
  destruct (validateResource_step B source r s)
    as (rec0 & logs & evs & E & Hout).
  rewrite E in Hrec. simpl in Hrec. apply last_record in Hrec. subst rec0.
  destruct Hout as [(_ & -> & _) | [(abs & _ & _ & -> & _)
                  | (abs & st & rs & rq & EU & _ & -> & _ & _ & Hv)]];
    simpl; try (split; discriminate).
  unfold probe_verdict in Hv.
  destruct Hv as [(-> & -> & Ha) | [(-> & _) | [(-> & -> & Hna & Hp)
                                               | (-> & _)]]];
    split; try discriminate; intros _; exists abs; auto.
Qed.






End ResourceTheorems.

(** ** The fetcher and the work on one source page *)

Section SourceSteps.

Variable B : Browser.

Lemma fetcher_step (u : string) (s : State) :
  exists html logs requests,
    fetchHTMLContent B u s
    = (Normal html,
       mkState (validationResults s) (errorMessage s) (console s ++ logs)
               (trace s ++ map EvFetch requests))
    /\ fetcher_requests B u requests
    /\ 1 <= length requests <= 2.
Proof.
  destruct s as [vr em co tr]. unfold fetchHTMLContent, fetcher_requests.
  unfold_js. simpl.
  destruct (encodeURIComponent B u) as [enc|] eqn:Eenc; simpl.
  - destruct (fetch B tr (relay_raw enc)) as [r|] eqn:Er; simpl.
    + destruct (resp_ok r) eqn:Eok; simpl.
      * destruct (resp_text r) as [body|] eqn:Et; simpl.
        -- exists (Some body), [], [relay_raw enc]. simpl.
           rewrite app_nil_r. split; [reflexivity|]. split; [|lia].
           left. exists enc. auto.
        -- destruct (fetch B (tr ++ [EvFetch (relay_raw enc)])
                           (no_cors_head u)); simpl;
             eexists _, _, [relay_raw enc; no_cors_head u]; simpl;
             rewrite <- ?app_assoc; simpl;
             (split; [reflexivity|]); (split; [|lia]);
             left; exists enc; auto.
      * destruct (fetch B (tr ++ [EvFetch (relay_raw enc)]) (direct_get u))
          as [d|]; simpl;
          [destruct (resp_ok d); simpl;
           [destruct (resp_text d); simpl|]|];
          eexists _, _, [relay_raw enc; direct_get u]; simpl;
          rewrite <- ?app_assoc; simpl;
          (split; [reflexivity|]); (split; [|lia]);
          left; exists enc; auto.
    + destruct (fetch B (tr ++ [EvFetch (relay_raw enc)]) (no_cors_head u));
        simpl;
        eexists _, _, [relay_raw enc; no_cors_head u]; simpl;
        rewrite <- ?app_assoc; simpl;
        (split; [reflexivity|]); (split; [|lia]);
        left; exists enc; auto.
  - destruct (fetch B tr (no_cors_head u)); simpl;
      eexists _, _, [no_cors_head u]; simpl;
      rewrite <- ?app_assoc; simpl;
      (split; [reflexivity|]); (split; [|lia]); right; auto.
Qed.

(** X5: the fetcher never throws, touches neither the accumulator nor
    the error banner, and makes one or two requests and no pause: the
    relay alone, the relay then the direct request, the relay then the
    probe, or the probe alone when the URL cannot be encoded; never the
    direct request and the probe both. *)
Theorem fetchHTMLContent_activity (u : string) (s : State) :
  exists html logs requests,
    fetchHTMLContent B u s
    = (Normal html,
       mkState (validationResults s) (errorMessage s) (console s ++ logs)
               (trace s ++ map EvFetch requests))
    /\ fetcher_requests B u requests
    /\ 1 <= length requests <= 2.
Proof. exact (fetcher_step u s). Qed.

Lemma fetchHTMLContent_counts (u : string) (s : State) :
  exists html logs evs,
    fetchHTMLContent B u s
    = (Normal html,
       mkState (validationResults s) (errorMessage s) (console s ++ logs)
               (trace s ++ evs))
    /\ 1 <= count_fetches evs <= 2 /\ count_delays evs = 0.
Proof.
  destruct (fetcher_step u s) as (html & logs & rq & E & _ & Hl).
  exists html, logs, (map EvFetch rq). split; [assumption|].
  destruct (count_fetches_requests rq) as [-> ->]. lia.
Qed.

Lemma extractResources_shape (html : string) :
  html <> CORS_RESTRICTED ->
  Forall (fun r => url r <> None
                   /\ (type r = "link" \/ type r = "image"))
         (extractResources B html).
Proof.
  intros Hne. unfold extractResources.
  destruct (String.eqb_spec html CORS_RESTRICTED); [contradiction|].
  apply Forall_forall. intros r Hr. apply filter_In in Hr.
  destruct Hr as [Hr Hn]. split.
  - destruct (url r); [discriminate | discriminate Hn].
  - apply in_app_or in Hr. destruct Hr as [Hr | Hr];
      apply in_map_iff in Hr; destruct Hr as (x & <- & _); simpl; auto.
Qed.

Lemma page_steps_links (source : string) resources h recs blocks :
  Forall (fun r => url r <> None
                   /\ (type r = "link" \/ type r = "image")) resources ->
  page_steps B source resources h recs blocks ->
  Forall (link_record source) recs.
Proof.
  intros Hall Hsteps. revert Hall.
  induction Hsteps as [|r rest h rec logs evs recs blocks Hout _ IH];
    intros Hall; [constructor|].
  inversion Hall as [|? ? (Hu & Ht) Hrest]; subst.
  constructor; [|auto].
  unfold link_record, resource_status.
  destruct Hout as [(_ & -> & _) | [(abs & _ & _ & -> & _)
                  | (abs & st & rs & rq & _ & _ & -> & _ & _ & Hv)]];
    simpl.
  - auto 10.
  - auto 10.
  - destruct (probe_verdict_reason B abs h st rs Hv) as (_ & _ & Hst).
    split; [reflexivity|]. split; [discriminate|]. auto.
Qed.

Lemma page_steps_records (source : string) resources h recs blocks :
  Forall (fun r => url r <> None
                   /\ (type r = "link" \/ type r = "image")) resources ->
  page_steps B source resources h recs blocks ->
  Forall (record_ok source) recs.
Proof.
  intros Hall Hsteps. revert Hall.
  induction Hsteps as [|r rest h rec logs evs recs blocks Hout _ IH];
    intros Hall; [constructor|].
  inversion Hall as [|? ? (Hu & Ht) Hrest]; subst.
  constructor; [|auto].
  unfold record_ok, resource_status.
  destruct Hout as [(_ & -> & _) | [(abs & _ & _ & -> & _)
                  | (abs & st & rs & rq & _ & _ & -> & _ & _ & Hv)]];
    simpl.
  - auto 10.
  - auto 10.
  - destruct (probe_verdict_reason B abs h st rs Hv) as (_ & _ & Hst).
    split; [reflexivity|]. split; [discriminate|]. left. auto.
Qed.

(** The work on one source page never throws, and leaves records of the
    page's shape, the banner it found or the message of a failed fetch,
    and an activity bounded by the records it filed. *)
Lemma processSource_facts (u : string) (s : State) :
  exists added logs evs after,
    processSource B u s
    = (Normal tt,
       mkState (validationResults s ++ added) after (console s ++ logs)
               (trace s ++ evs))
    /\ source_facts u (errorMessage s) after added evs.
Proof.
  destruct (fetchHTMLContent_counts u s)
    as (html & logs & evs & E & Hf & Hd).
  unfold source_facts.
  assert (Hfail : html_truthy html = false ->
            exists added logs evs after,
              processSource B u s
              = (Normal tt,
                 mkState (validationResults s ++ added) after
                         (console s ++ logs) (trace s ++ evs))
              /\ Forall (record_ok u) added
              /\ (after = errorMessage s
                  \/ (after = "Failed to fetch content from: " ++ u
                      /\ added = []))
              /\ 1 <= count_fetches evs <= 2 + 2 * length added
              /\ count_delays evs <= length added
              /\ group_ok u added).
  { intros Hfalsy.
    exists [], logs, evs, ("Failed to fetch content from: " ++ u).
    rewrite (processSource_of_work B u s _
               (sourceWork_unfetched B u s _ html E Hfalsy)).
    simpl. rewrite app_nil_r. unfold group_ok.
    repeat split; auto; lia. }
  destruct html as [page|]; [|now apply Hfail].
  destruct (String.eqb_spec page "") as [-> | Hne]; [now apply Hfail|].
  clear Hfail.
  pose proof (sourceWork_fetched B u page s _ E Hne) as Ew.
  assert (Hsentinel : forall rec st rsn,
            rec = mkResult u (Some u) "URL" st rsn ->
            st = "Unknown" \/ st = "Empty" ->
            Forall (record_ok u) [rec]).
  { intros rec st rsn -> Hst. constructor; [|constructor].
    unfold record_ok. simpl. split; [reflexivity|].
    split; [discriminate|]. right. auto. }
  destruct (String.eqb_spec page CORS_RESTRICTED) as [-> | Hpage].
  - exists [mkResult u (Some u) "URL" "Unknown"
                     "CORS restricted - cannot access content"],
      logs, evs, (errorMessage s).
    rewrite (processSource_of_work B u s _ Ew).
    split; [reflexivity|]. split; [eapply Hsentinel; eauto|].
    split; [auto|]. unfold group_ok. simpl. repeat split; auto; lia.
  - destruct (extractResources B page) as [|r rest] eqn:Er.
    + exists [mkResult u (Some u) "URL" "Empty" "No links or images found"],
        logs, evs, (errorMessage s).
      rewrite (processSource_of_work B u s _ Ew).
      split; [reflexivity|]. split; [eapply Hsentinel; eauto|].
      split; [auto|]. unfold group_ok. simpl. repeat split; auto; lia.
    + pose proof (extractResources_not_flagged B page Hpage) as Hflag.
      pose proof (extractResources_shape page Hpage) as Hshape.
      rewrite Er in Hflag, Hshape.
      rewrite (validateResources_loops B u (r :: rest) _ Hflag) in Ew
        by discriminate.
      destruct (forEach_page_steps B u (r :: rest)
                  (mkState (validationResults s) (errorMessage s)
                           (console s ++ logs) (trace s ++ evs)))
        as (recs & logs' & blocks & E' & Hsteps).
      rewrite E' in Ew. simpl in Ew.
      exists recs, (logs ++ logs')%list, (evs ++ concat blocks)%list,
        (errorMessage s).
      rewrite (processSource_of_work B u s _ Ew), !app_assoc.
      split; [reflexivity|]. split.
      * eapply page_steps_records; eassumption.
      * split; [auto|].
        destruct (page_steps_lengths B u _ _ _ _ Hsteps) as [Hl1 Hl2].
        pose proof (page_steps_blocks B u _ _ _ _ Hsteps) as Hb.
        destruct (blocks_counts blocks Hb) as [Hc1 Hc2].
        rewrite count_fetches_app, count_delays_app.
        repeat split; try lia.
        right. right. right. split.
        -- intros ->. simpl in Hl1. discriminate.
        -- eapply page_steps_links; eassumption.
Qed.

End SourceSteps.

(** ** A whole run *)

Section RunProperties.

Variable B : Browser.

Lemma forEach_sources (urls : list string) :
  forall s,
  exists groups logs evs after,
    forEach urls (processSource B) s
    = (Normal tt,
       mkState (validationResults s ++ concat groups) after
               (console s ++ logs) (trace s ++ evs))
    /\ Forall2 (fun u group => Forall (record_ok u) group) urls groups
    /\ (after = errorMessage s
        \/ exists u, In u urls
                     /\ after = "Failed to fetch content from: " ++ u)
    /\ length urls <= count_fetches evs
       <= 2 * length urls + 2 * length (concat groups)
    /\ count_delays evs <= length (concat groups)
    /\ Forall2 group_ok urls groups.
Proof.
  induction urls as [|u rest IH]; intros s.
  - exists [], [], [], (errorMessage s). simpl. rewrite !app_nil_r.
    destruct s. unfold count_fetches, count_delays. simpl.
    repeat split; auto.
  - destruct (processSource_facts B u s)
      as (added & logs & evs & after & E & Hrec & Hban & Hf & Hd & Hg).
    destruct (IH (mkState (validationResults s ++ added) after
                          (console s ++ logs) (trace s ++ evs)))
      as (groups & logs' & evs' & after' & E' & Hgroups & Hban' & Hf' & Hd'
          & Hg').
    exists (added :: groups), (logs ++ logs')%list, (evs ++ evs')%list, after'.
    simpl forEach. rewrite (bind_normal _ _ _ _ _ E), E'.
    simpl in *. rewrite <- !app_assoc.
    split; [reflexivity|]. split; [constructor; assumption|]. split.
    + destruct Hban' as [-> | (u' & Hin & ->)].
      * destruct Hban as [-> | (-> & _)]; [now left|].
        right. exists u. auto.
      * right. exists u'. auto.
    + rewrite count_fetches_app, count_delays_app, length_app.
      repeat split; try lia. constructor; assumption.
Qed.

Lemma validateURLs_accepted (urls : list string) (s : State) :
  accepted B urls ->
  validateURLs B urls s
  = forEach urls (processSource B)
            (mkState [] "" (console s) (trace s)).
Proof.
  intros (Hne & Hlen & Hvalid). unfold validateURLs, clearPrevious.
  unfold bind at 1. cbv beta iota.
  destruct urls as [|u rest]; [congruence|].
  change (Nat.eqb (length (u :: rest)) 0) with false. cbv iota.
  destruct (Nat.ltb_spec 10 (length (u :: rest))) as [Hlong|_]; [lia|].
  assert (Hnone : filter (fun x => negb (isValidURL B x)) (u :: rest) = []).
  { clear Hne Hlen. induction Hvalid as [|x xs Hx _ IH]; [reflexivity|].
    simpl. now rewrite Hx. }
  rewrite Hnone.
  change (Nat.ltb 0 (length (@nil string))) with false. cbv iota.
  destruct (forEach_sources (u :: rest) (mkState [] "" (console s) (trace s)))
    as (groups & logs & evs & after & E & _).
  now rewrite (try_catch_normal _ _ _ _ _ E), E.
Qed.

(** X6: a run over an accepted list never throws, and its records are
    one group per source page, the groups in the order of the input.  The
    group of a page is empty, or is exactly the one URL-typed record of a
    restricted page, or is exactly the one URL-typed record of a page
    without resources, or is a non-empty list of link and image records
    with status Valid, Broken or Likely Valid; every record names its own
    source page and has a url that is never null. *)
Theorem accepted_run_records (urls : list string) (s : State) :
  accepted B urls ->
  let s' := snd (validateURLs B urls s) in
  fst (validateURLs B urls s) = Normal tt
  /\ (exists groups,
         validationResults s' = concat groups
         /\ Forall2 (fun u group => Forall (record_ok u) group) urls groups
         /\ Forall2 group_ok urls groups)
  /\ (forall rec, In rec (validationResults s') ->
                  In (sourceUrl rec) urls /\ resultUrl rec <> None).
Proof.
  intros Hacc s'. subst s'. rewrite (validateURLs_accepted urls s Hacc).
  destruct (forEach_sources urls (mkState [] "" (console s) (trace s)))
    as (groups & logs & evs & after & E & Hgroups & _ & _ & _ & Hshape).
  rewrite E. simpl. split; [reflexivity|]. split; [eauto|].
  clear Hshape.
  clear E Hacc. intros rec Hin. apply in_concat in Hin.
  destruct Hin as (group & Hg & Hin).
  induction Hgroups as [|u g us gs Hok _ IH]; [contradiction|].
  destruct Hg as [<- | Hg].
  - rewrite Forall_forall in Hok. destruct (Hok rec Hin) as (<- & Hu & _).
    split; [now left | assumption].
  - destruct (IH Hg). split; [now right | assumption].
Qed.

(** X7: after a run over an accepted list the error banner is empty or
    names one of the source pages as failed to fetch; the message of the
    outermost handler never appears, since nothing reaches it. *)
Theorem accepted_run_banner (urls : list string) (s : State) :
  accepted B urls ->
  let s' := snd (validateURLs B urls s) in
  fst (validateURLs B urls s) = Normal tt
  /\ (errorMessage s' = ""
      \/ exists u, In u urls
                   /\ errorMessage s' = "Failed to fetch content from: " ++ u)
  /\ errorMessage s'
     <> "An error occurred during validation. Please try again.".
Proof.
  intros Hacc s'. subst s'. rewrite (validateURLs_accepted urls s Hacc).
  destruct (forEach_sources urls (mkState [] "" (console s) (trace s)))
    as (groups & logs & evs & after & E & _ & Hban & _).
  rewrite E. simpl. simpl in Hban.
  split; [reflexivity|]. split; [assumption|].
  destruct Hban as [-> | (u & _ & ->)]; discriminate.
Qed.

(** X8: a run over an accepted list makes at least one request per
    source page and at most two per source page plus two per record, and
    pauses at most once per record. *)
Theorem accepted_run_budget (urls : list string) (s : State) :
  accepted B urls ->
  let s' := snd (validateURLs B urls s) in
  exists evs,
    trace s' = (trace s ++ evs)%list
    /\ length urls <= count_fetches evs
       <= 2 * length urls + 2 * length (validationResults s')
    /\ count_delays evs <= length (validationResults s').
Proof.
  intros Hacc s'. subst s'. rewrite (validateURLs_accepted urls s Hacc).
  destruct (forEach_sources urls (mkState [] "" (console s) (trace s)))
    as (groups & logs & evs & after & E & _ & _ & Hf & Hd & _).
  rewrite E. simpl. exists evs. auto.
Qed.

End RunProperties.

(** ** The results table *)

Section DisplayProperties.

Variable capitalizeNonAscii : string -> string.

Lemma summary_of_cons (r : ValidationResult) (results : list ValidationResult) :
  let row := displayRow capitalizeNonAscii r in
  let valid := String.eqb (statusClass row) "status-valid" in
  let broken := String.eqb (statusClass row) "status-broken" in
  let unknown := String.eqb (statusClass row) "status-unknown" in
  (is_status "Valid" r || is_status "Likely Valid" r = valid)
  /\ is_status "Broken" r = broken
  /\ (negb (is_status "Valid" r) && negb (is_status "Likely Valid" r)
      && negb (is_status "Broken" r) = unknown)
  /\ (if valid then 1 else 0) + (if broken then 1 else 0)
     + (if unknown then 1 else 0) = 1.
Proof.
  destruct r as [src ru rt st rs]. unfold is_status, displayRow.
  cbn [status statusClass].
  destruct (String.eqb_spec st "Valid") as [-> | H1];
    [repeat split|].
  destruct (String.eqb_spec st "Likely Valid") as [-> | H2];
    [repeat split|].
  destruct (String.eqb_spec st "Broken") as [-> | H3];
    repeat split.
Qed.

(** X9: the summary row partitions the records: Total is the number of
    rows and the sum of Valid, Broken and Unknown, and each of the three
    counts is the number of rows shown with the matching status class
    (Likely Valid counting as valid, anything else than Valid, Likely
    Valid and Broken as unknown). *)
Theorem summary_partitions_the_records (results : list ValidationResult) :
  let table := displayResults capitalizeNonAscii results in
  let counts := summary table in
  totalResources counts = length (rows table)
  /\ totalResources counts
     = validResources counts + brokenResources counts
       + unknownResources counts
  /\ validResources counts = count_class "status-valid" (rows table)
  /\ brokenResources counts = count_class "status-broken" (rows table)
  /\ unknownResources counts = count_class "status-unknown" (rows table).
Proof.
  cbv zeta. unfold displayResults, count_class.
  cbn [summary rows totalResources validResources brokenResources
       unknownResources].
  induction results as [|r rest IH]; [repeat split|].
  destruct IH as (IH0 & IH1 & IH2 & IH3 & IH4).
  destruct (summary_of_cons r rest) as (Hv & Hb & Hu & Hsum).
  cbv zeta in Hv, Hb, Hu, Hsum.
  cbn [map filter length]. rewrite Hu, Hv, Hb.
  destruct (String.eqb (statusClass (displayRow capitalizeNonAscii r))
              "status-valid");
    destruct (String.eqb (statusClass (displayRow capitalizeNonAscii r))
                "status-broken");
    destruct (String.eqb (statusClass (displayRow capitalizeNonAscii r))
                "status-unknown");
    cbn [length]; cbn [length] in Hsum; repeat split; lia.
Qed.

Variable B : Browser.

Lemma record_ok_row (u : string) (rec : ValidationResult) :
  record_ok u rec ->
  let row := displayRow capitalizeNonAscii rec in
  ((typeCell row = "Link" \/ typeCell row = "Image")
   /\ (statusClass row = "status-valid" \/ statusClass row = "status-broken"))
  \/ (typeCell row = "URL" /\ statusClass row = "status-unknown"
      /\ sourceCell row = LinkCell u u).
Proof.
  destruct rec as [src ru rt st rs]. unfold record_ok, resource_status.
  simpl. intros (-> & _ & [([-> | ->] & [-> | [-> | ->]])
                          | (-> & _ & [-> | ->])]);
    simpl; auto 10.
Qed.

(** X10: in the table of a run over an accepted list every row is either
    a Link or Image row shown as valid or broken, or the URL row of a
    restricted or empty page shown as unknown; so the Unknown count of the
    summary is the number of such pages. *)
Theorem run_table_rows (urls : list string) (s : State) :
  accepted B urls ->
  let results := validationResults (snd (validateURLs B urls s)) in
  let table := displayResults capitalizeNonAscii results in
  Forall (fun row =>
            ((typeCell row = "Link" \/ typeCell row = "Image")
             /\ (statusClass row = "status-valid"
                 \/ statusClass row = "status-broken"))
            \/ (typeCell row = "URL" /\ statusClass row = "status-unknown"))
         (rows table)
  /\ unknownResources (summary table)
     = length (filter (fun row => String.eqb (typeCell row) "URL")
                      (rows table)).
Proof.
  intros Hacc results table. subst results table.
  rewrite (validateURLs_accepted B urls s Hacc).
  destruct (forEach_sources B urls (mkState [] "" (console s) (trace s)))
    as (groups & logs & evs & after & E & Hgroups & _).
  rewrite E. simpl validationResults. clear E.
  assert (Hall : Forall (fun rec => exists u, record_ok u rec)
                        (concat groups)).
  { clear Hacc. induction Hgroups as [|u g us gs Hok _ IH]; [constructor|].
    simpl. apply Forall_app. split; [|assumption].
    eapply Forall_impl; [|exact Hok]. intros rec Hrec. now exists u. }
  generalize dependent (concat groups). clear. intros results Hall.
  unfold displayResults. cbn [rows summary unknownResources].
  induction Hall as [|rec rest (u & Hrec) _ [IH1 IH2]];
    [split; [constructor | reflexivity]|].
  pose proof (record_ok_row u rec Hrec) as Hrow. cbv zeta in Hrow.
  cbn [map filter]. split.
  - constructor; [|assumption]. tauto.
  - destruct (summary_of_cons rec rest) as (_ & _ & Hu & _).
    cbv zeta in Hu. rewrite Hu.
    destruct Hrow as [([Ht | Ht] & [Hc | Hc]) | (Ht & Hc & _)];
      rewrite Ht, Hc; cbn [String.eqb Ascii.eqb Bool.eqb length];
      simpl; now rewrite IH2.
Qed.

End DisplayProperties.

(** ** A run and its export *)

Section RunExport.

Variable B : Browser.

Lemma exact_fields (results : list ValidationResult) :
  (forall rec, In rec results -> resultUrl rec <> None) ->
  Forall2 exactFields results (map resultFields results).
Proof.
  induction results as [|r rest IH]; intros Hall; [constructor|].
  simpl. constructor.
  - unfold exactFields, resultFields.
    destruct (resultUrl r) as [u|] eqn:Eu.
    + exists u. auto.
    + exfalso. apply (Hall r); [now left | assumption].
  - apply IH. intros rec Hin. apply Hall. now right.
Qed.

(** X11: the export of a run reads back exactly: when a run over an
    accepted list leaves records, the CSV text has the header row and one
    row per record whose five fields are the record's sourceUrl, url,
    type, status and reason, no url having been null. *)
Theorem run_export_round_trip (urls : list string) (s : State) :
  accepted B urls ->
  let results := validationResults (snd (validateURLs B urls s)) in
  results <> [] ->
  exists csv table,
    exportAsCSV results = Some csv
    /\ parseCSV csv = Some (headerFields :: table)
    /\ Forall2 exactFields results table.
Proof.
  intros Hacc results Hne. subst results.
  assert (Hurl : forall rec,
            In rec (validationResults (snd (validateURLs B urls s))) ->
            resultUrl rec <> None).
  { rewrite (validateURLs_accepted B urls s Hacc).
    destruct (forEach_sources B urls (mkState [] "" (console s) (trace s)))
      as (groups & logs & evs & after & E & Hgroups & _).
    rewrite E. simpl validationResults. clear E Hacc Hne.
    intros rec Hin. apply in_concat in Hin.
    destruct Hin as (group & Hg & Hin).
    induction Hgroups as [|u g us gs Hok _ IH]; [contradiction|].
    destruct Hg as [<- | Hg]; [|auto].
    rewrite Forall_forall in Hok. now destruct (Hok rec Hin) as (_ & Hu & _). }
  remember (validationResults (snd (validateURLs B urls s))) as results.
  exists (csvHeader ++ String.concat (String newline "") (map csvRow results)),
    (map resultFields results).
  split; [|split].
  - unfold exportAsCSV. destruct results; [congruence | reflexivity].
  - unfold parseCSV. rewrite parse_header, parse_rows by assumption.
    reflexivity.
  - now apply exact_fields.
Qed.

End RunExport.

(** ** The input box *)

Lemma strip_all_space (back : bool) (s : string) :
  all_chars ascii_space s = true -> strip_space back s = "".
Proof.
  induction s as [|c rest IH]; simpl; [reflexivity|].
  intros H. apply andb_true_iff in H. destruct H as [Hc Hrest].
  rewrite Hc. auto.
Qed.

Lemma trim_all_space (s : string) :
  all_chars ascii_space s = true -> trim s = "".
Proof.
  intros H. unfold trim. now rewrite (strip_all_space false s H).
Qed.

Lemma contains_newline_cons (c : ascii) (line : string) :
  contains_char newline (String c line)
  = Ascii.eqb c newline || contains_char newline line.
Proof.
  cbn [contains_char]. now rewrite Ascii.eqb_sym.
Qed.

Lemma split_lines_cons (c : ascii) (rest : string) :
  split_lines (String c rest)
  = if Ascii.eqb c newline then EmptyString :: split_lines rest
    else match split_lines rest with
         | line :: others => String c line :: others
         | [] => [String c EmptyString]
         end.
Proof. reflexivity. Qed.

Lemma split_lines_no_newline (s : string) :
  Forall (fun line => contains_char newline line = false) (split_lines s).
Proof.
  induction s as [|c rest IH].
  - constructor; [reflexivity | constructor].
  - rewrite split_lines_cons. destruct (Ascii.eqb c newline) eqn:Ec.
    + constructor; [reflexivity | assumption].
    + destruct (split_lines rest) as [|line others].
      * constructor; [|constructor].
        rewrite contains_newline_cons, Ec. reflexivity.
      * inversion IH; subst. constructor; [|assumption].
        rewrite contains_newline_cons, Ec. assumption.
Qed.

Lemma split_lines_single (line : string) :
  contains_char newline line = false -> split_lines line = [line].
Proof.
  induction line as [|c rest IH]; [reflexivity|].
  rewrite contains_newline_cons, split_lines_cons.
  intros H. apply orb_false_iff in H. destruct H as [Hc Hrest].
  rewrite Hc, (IH Hrest). reflexivity.
Qed.

Lemma split_lines_first (line rest : string) :
  contains_char newline line = false ->
  split_lines (line ++ String newline rest) = line :: split_lines rest.
Proof.
  induction line as [|c more IH].
  - intros _. cbn [append]. rewrite split_lines_cons.
    now rewrite Ascii.eqb_refl.
  - rewrite contains_newline_cons. cbn [append]. rewrite split_lines_cons.
    intros H. apply orb_false_iff in H. destruct H as [Hc Hmore].
    rewrite Hc, (IH Hmore). reflexivity.
Qed.

Lemma split_lines_concat (lines : list string) :
  lines <> [] ->
  Forall (fun line => contains_char newline line = false) lines ->
  split_lines (String.concat (String newline "") lines) = lines.
Proof.
  induction lines as [|line rest IH]; intros Hne Hall; [congruence|].
  inversion Hall as [|? ? Hline Hrest]; subst.
  destruct rest as [|next rest].
  - simpl. now apply split_lines_single.
  - change (String.concat (String newline "") (line :: next :: rest))
      with (line ++ String newline
                      (String.concat (String newline "") (next :: rest))).
    rewrite split_lines_first by assumption.
    rewrite IH by (discriminate || assumption). reflexivity.
Qed.

(** X12: no entry of the list read from the input box is blank or
    contains a line feed, whatever the text. *)
Theorem inputURLs_entries (value : string) :
  Forall (fun u => trim u <> "" /\ u <> ""
                   /\ contains_char newline u = false)
         (inputURLs value).
Proof.
  unfold inputURLs. apply Forall_forall. intros u Hu.
  apply filter_In in Hu. destruct Hu as [Hin Hblank].
  apply negb_true_iff, String.eqb_neq in Hblank.
  split; [assumption|]. split.
  - intros ->. now apply Hblank.
  - pose proof (split_lines_no_newline (trim value)) as Hall.
    rewrite Forall_forall in Hall. now apply Hall.
Qed.

(** X13: a text with no white space around it, made of lines that are not
    blank, is read as exactly its lines, in order and unchanged (a line
    is not trimmed). *)
Theorem inputURLs_of_lines (lines : list string) :
  trim (String.concat (String newline "") lines)
  = String.concat (String newline "") lines ->
  Forall (fun line => contains_char newline line = false
                      /\ trim line <> "") lines ->
  inputURLs (String.concat (String newline "") lines) = lines.
Proof.
  intros Htrim Hall. unfold inputURLs. rewrite Htrim.
  destruct lines as [|line rest]; [reflexivity|].
  rewrite split_lines_concat;
    [|discriminate
     |eapply Forall_impl; [|exact Hall]; intros a Ha; apply Ha].
  apply forallb_filter_id. apply forallb_forall. intros u Hu.
  rewrite Forall_forall in Hall. destruct (Hall u Hu) as [_ Hb].
  now apply negb_true_iff, String.eqb_neq.
Qed.

(** ** The page around a run *)

Section PageProperties.

Variable capitalizeNonAscii : string -> string.
Variable B : Browser.

Lemma none_invalid (urls : list string) :
  filter (fun u => negb (isValidURL B u)) urls = [] ->
  Forall (fun u => isValidURL B u = true) urls.
Proof.
  induction urls as [|u rest IH]; simpl; [constructor|].
  destruct (isValidURL B u) eqn:Eu; simpl; [|discriminate].
  intros H. constructor; auto.
Qed.

Lemma some_invalid (urls : list string) :
  filter (fun u => negb (isValidURL B u)) urls <> [] ->
  ~ Forall (fun u => isValidURL B u = true) urls.
Proof.
  intros Hne Hall. apply Hne. clear Hne.
  induction Hall as [|u rest Hu _ IH]; [reflexivity|].
  simpl. now rewrite Hu.
Qed.

(** The run with its page elements: it never throws, its state is the
    state of [validateURLs] on the list read from the box, and the view
    follows the accumulator. *)
Lemma validateURLs_page_cases (value : string) (v : View) (s : State) :
  let urls := inputURLs value in
  let s' := snd (validateURLs B urls s) in
  (~ accepted B urls
   /\ validationResults s' = []
   /\ validateURLs_page capitalizeNonAscii B value v s
      = (Normal (mkView true (loadingIndicator_hidden v)
                        (resultsTableContainer_hidden v)
                        (noResultsMessage_hidden v) None), s'))
  \/ (accepted B urls
      /\ validationResults s' = []
      /\ validateURLs_page capitalizeNonAscii B value v s
         = (Normal (mkView true true true false None), s'))
  \/ (accepted B urls
      /\ validationResults s' <> []
      /\ validateURLs_page capitalizeNonAscii B value v s
         = (Normal (mkView false true false true
                           (Some (displayResults capitalizeNonAscii
                                    (validationResults s')))), s')).
Proof.
  cbv zeta. unfold validateURLs_page. cbv zeta.
  generalize (inputURLs value) as urls. intros urls.
  destruct (Nat.eqb (length urls) 0) eqn:H0.
  { left. apply Nat.eqb_eq in H0. destruct urls; [|discriminate].
    split; [intros (Hne & _); congruence|]. split; reflexivity. }
  destruct (Nat.ltb 10 (length urls)) eqn:H10.
  { left. unfold validateURLs. rewrite H0, H10.
    apply Nat.ltb_lt in H10.
    split; [intros (_ & Hlen & _); lia|]. split; reflexivity. }
  destruct (Nat.ltb 0 (length (filter (fun u => negb (isValidURL B u)) urls)))
    eqn:Hinv.
  { left. unfold validateURLs. rewrite H0, H10, Hinv.
    split; [|split; reflexivity].
    intros (_ & _ & Hall). apply (some_invalid urls); [|assumption].
    apply Nat.ltb_lt in Hinv. destruct (filter _ urls); [simpl in Hinv; lia|].
    discriminate. }
  assert (Hacc : accepted B urls).
  { apply Nat.eqb_neq in H0. apply Nat.ltb_ge in H10, Hinv.
    split; [intros ->; now apply H0|]. split; [assumption|].
    apply none_invalid. destruct (filter _ urls); [reflexivity|].
    simpl in Hinv. lia. }
  rewrite (validateURLs_accepted B urls s Hacc).
  destruct (forEach_sources B urls (mkState [] "" (console s) (trace s)))
    as (groups & logs & evs & after & E & _).
  rewrite E. cbn [snd validationResults app].
  assert (E0 : clearPrevious s
               = (Normal tt, mkState [] "" (console s) (trace s)))
    by reflexivity.
  rewrite (bind_normal _ _ _ _ _ E0).
  destruct (concat groups) as [|rec recs] eqn:Eg.
  - right. left. split; [assumption|]. split; [reflexivity|].
    match goal with
    | |- bind (try_catch ?body ?h) ?k ?s0 = _ =>
        assert (Eb : body s0
                     = (Normal (mkView true false true false None),
                        mkState [] after (console s ++ logs)
                                (trace s ++ evs)))
    end.
    { rewrite (bind_normal _ _ _ _ _ E). reflexivity. }
    rewrite (bind_normal _ _ _ _ _ (try_catch_normal _ _ _ _ _ Eb)).
    reflexivity.
  - right. right. split; [assumption|]. split; [discriminate|].
    match goal with
    | |- bind (try_catch ?body ?h) ?k ?s0 = _ =>
        assert (Eb : body s0
                     = (Normal (mkView false false false true
                                  (Some (displayResults capitalizeNonAscii
                                           (rec :: recs)))),
                        mkState (rec :: recs) after (console s ++ logs)
                                (trace s ++ evs)))
    end.
    { rewrite (bind_normal _ _ _ _ _ E). reflexivity. }
    rewrite (bind_normal _ _ _ _ _ (try_catch_normal _ _ _ _ _ Eb)).
    reflexivity.
Qed.

(** X14: the click handler never throws and leaves the state that
    [validateURLs] leaves on the list read from the box; the export
    button is enabled exactly when there are records, which is exactly
    when the export produces a file; then the table shows them and the
    no-results message is hidden.  After an accepted list without any
    record the no-results message is shown and the table hidden, and the
    loading indicator is hidden after every accepted list. *)
Theorem page_after_run (value : string) (v : View) (s : State) :
  let urls := inputURLs value in
  let s' := snd (validateURLs B urls s) in
  let results := validationResults s' in
  exists v',
    validateURLs_page capitalizeNonAscii B value v s = (Normal v', s')
    /\ (exportBtn_disabled v' = false <-> results <> [])
    /\ (exportBtn_disabled v' = false <-> exportAsCSV results <> None)
    /\ (results <> [] ->
        resultsBody v' = Some (displayResults capitalizeNonAscii results)
        /\ resultsTableContainer_hidden v' = false
        /\ noResultsMessage_hidden v' = true)
    /\ (results = [] -> resultsBody v' = None)
    /\ (accepted B urls ->
        loadingIndicator_hidden v' = true
        /\ (results = [] -> noResultsMessage_hidden v' = false
                            /\ resultsTableContainer_hidden v' = true)).
Proof.
  cbv zeta.
  destruct (validateURLs_page_cases value v s)
    as [(Hrej & Hnil & E) | [(Hacc & Hnil & E) | (Hacc & Hsome & E)]];
    cbv zeta in *;
    eexists; (split; [exact E|]); cbn [exportBtn_disabled resultsBody
      resultsTableContainer_hidden noResultsMessage_hidden
      loadingIndicator_hidden].
  - rewrite Hnil. cbn [exportAsCSV length Nat.eqb].
    repeat split; intros; try congruence; try discriminate; tauto.
  - rewrite Hnil. cbn [exportAsCSV length Nat.eqb].
    repeat split; intros; try congruence; try discriminate; tauto.
  - destruct (validationResults (snd (validateURLs B (inputURLs value) s)))
      as [|rec recs] eqn:Er; [congruence|].
    cbn [exportAsCSV length Nat.eqb].
    repeat split; intros; try congruence; try discriminate.
Qed.

(** X15: a text of white space only (spaces, tabs, line breaks) is
    rejected with the message asking for a URL, without any request and
    with an empty accumulator. *)
Theorem blank_input_is_rejected (value : string) (v : View) (s : State) :
  all_chars ascii_space value = true ->
  inputURLs value = []
  /\ validateURLs_page capitalizeNonAscii B value v s
     = (Normal (mkView true (loadingIndicator_hidden v)
                       (resultsTableContainer_hidden v)
                       (noResultsMessage_hidden v) None),
        mkState [] "Please enter at least one URL." (console s) (trace s)).
Proof.
  intros Hblank.
  assert (Hin : inputURLs value = []).
  { unfold inputURLs. rewrite (trim_all_space value Hblank). reflexivity. }
  split; [assumption|].
  unfold validateURLs_page. cbv zeta. rewrite Hin. reflexivity.
Qed.

End PageProperties.

(** ** The name of the downloaded file *)

Lemma append_length (a b : string) :
  String.length (a ++ b) = String.length a + String.length b.
Proof.
  induction a as [|c a IH]; simpl; [reflexivity | now rewrite IH].
Qed.

Lemma append_inj_prefix (a b x y : string) :
  String.length a = String.length b -> a ++ x = b ++ y -> a = b /\ x = y.
Proof.
  revert b. induction a as [|c a IH]; intros [|d b] Hlen H;
    simpl in *; try discriminate; [auto|].
  injection H as -> H. injection Hlen as Hlen.
  destruct (IH b Hlen H) as [-> ->]. auto.
Qed.

Lemma append_inj_suffix (a b x y : string) :
  String.length x = String.length y -> a ++ x = b ++ y -> a = b /\ x = y.
Proof.
  intros Hlen H. apply append_inj_prefix; [|assumption].
  apply (f_equal String.length) in H. rewrite !append_length in H. lia.
Qed.

Lemma to_int_proper (z : Z) :
  Z.to_int z <> Decimal.Pos Decimal.Nil /\ Z.to_int z <> Decimal.Neg Decimal.Nil.
Proof.
  destruct z as [|p|p]; simpl; split; try discriminate;
    intros H; injection H as H;
    now apply DecimalPos.Unsigned.to_uint_nonnil in H.
Qed.

Lemma string_of_Z_inj (a b : Z) : string_of_Z a = string_of_Z b -> a = b.
Proof.
  unfold string_of_Z. intros H.
  apply (f_equal NilZero.int_of_string) in H.
  destruct (to_int_proper a) as [Ha1 Ha2].
  destruct (to_int_proper b) as [Hb1 Hb2].
  rewrite !NilZero.isi in H by assumption.
  injection H as H. apply (f_equal Z.of_int) in H.
  now rewrite !DecimalZ.of_to in H.
Qed.

Lemma below_hundred (n : Z) :
  (0 <= n < 100)%Z -> In n (map Z.of_nat (seq 0 100)).
Proof.
  intros H. rewrite <- (Z2Nat.id n) by lia.
  apply in_map, in_seq. lia.
Qed.

Lemma two_digits_checked :
  forallb (fun a =>
             Nat.eqb (String.length (two_digits a)) 2
             && forallb (fun b => implb (String.eqb (two_digits a)
                                                    (two_digits b))
                                        (Z.eqb a b))
                        (map Z.of_nat (seq 0 100)))
          (map Z.of_nat (seq 0 100)) = true.
Proof. vm_compute. reflexivity. Qed.

Lemma two_digits_length (n : Z) :
  (0 <= n < 100)%Z -> String.length (two_digits n) = 2.
Proof.
  intros H. pose proof two_digits_checked as C.
  rewrite forallb_forall in C. specialize (C n (below_hundred n H)).
  apply andb_true_iff in C. destruct C as [C _]. now apply Nat.eqb_eq.
Qed.

Lemma two_digits_inj (a b : Z) :
  (0 <= a < 100)%Z -> (0 <= b < 100)%Z ->
  two_digits a = two_digits b -> a = b.
Proof.
  intros Ha Hb E. pose proof two_digits_checked as C.
  rewrite forallb_forall in C. specialize (C a (below_hundred a Ha)).
  apply andb_true_iff in C. destruct C as [_ C].
  rewrite forallb_forall in C. specialize (C b (below_hundred b Hb)).
  rewrite E, String.eqb_refl in C. simpl in C. now apply Z.eqb_eq.
Qed.

Lemma timestamp_inj (t1 t2 : LocalTime) :
  valid_time t1 -> valid_time t2 -> timestamp t1 = timestamp t2 -> t1 = t2.
Proof.
  intros (Hm1 & Hd1 & Hh1 & Hn1) (Hm2 & Hd2 & Hh2 & Hn2).
  destruct t1 as [y1 m1 d1 h1 n1], t2 as [y2 m2 d2 h2 n2].
  unfold timestamp. simpl in *. intros H.
  apply append_inj_suffix in H.
  2:{ cbn [append String.length]. rewrite !append_length.
      cbn [append String.length]. rewrite !append_length.
      cbn [append String.length]. rewrite !append_length.
      cbn [String.length].
      rewrite !two_digits_length by lia. reflexivity. }
  destruct H as [Hy H]. apply string_of_Z_inj in Hy.
  cbn [append] in H. injection H as H.
  apply append_inj_prefix in H; [|rewrite !two_digits_length by lia; reflexivity].
  destruct H as [Hm H]. apply two_digits_inj in Hm; [|lia|lia].
  cbn [append] in H. injection H as H.
  apply append_inj_prefix in H; [|rewrite !two_digits_length by lia; reflexivity].
  destruct H as [Hd H]. apply two_digits_inj in Hd; [|lia|lia].
  cbn [append] in H. injection H as H.
  apply append_inj_prefix in H; [|rewrite !two_digits_length by lia; reflexivity].
  destruct H as [Hh H]. apply two_digits_inj in Hh; [|lia|lia].
  cbn [append] in H. injection H as H.
  apply two_digits_inj in H; [|lia|lia].
  f_equal; lia.
Qed.

(** X16: the name of the downloaded file determines the minute of the
    export: two exports whose local times differ in the year, month,
    day, hour or minute get different file names. *)
Theorem download_name_determines_the_minute
  (results1 results2 : list ValidationResult) (t1 t2 : LocalTime)
  (d1 d2 : Download) :
  valid_time t1 -> valid_time t2 ->
  exportAsCSV_download results1 t1 = Some d1 ->
  exportAsCSV_download results2 t2 = Some d2 ->
  download_name d1 = download_name d2 -> t1 = t2.
Proof.
  intros Hv1 Hv2 E1 E2 Hname. unfold exportAsCSV_download in E1, E2.
  destruct (exportAsCSV results1); [|discriminate].
  destruct (exportAsCSV results2); [|discriminate].
  injection E1 as <-. injection E2 as <-. cbn [download_name] in Hname.
  apply (append_inj_prefix "resource_validation_" "resource_validation_")
    in Hname; [|reflexivity].
  destruct Hname as [_ Hname].
  apply append_inj_suffix in Hname; [|reflexivity].
  destruct Hname as [Hname _]. now apply timestamp_inj.
Qed.

(** X17: a download exists exactly when there are records; its content
    is the CSV text, and its name is the fixed prefix, the year, four
    zero-padded two-character components and the extension: 36 characters
    and the digits of the year. *)
Theorem download_shape (results : list ValidationResult) (now : LocalTime) :
  valid_time now ->
  (exportAsCSV_download results now = None <-> results = [])
  /\ (forall d, exportAsCSV_download results now = Some d ->
                exportAsCSV results = Some (blob_data d)
                /\ blob_type d = "text/csv;charset=utf-8;"
                /\ String.length (download_name d)
                   = 36 + String.length (string_of_Z (getFullYear now))).
Proof.
  intros (Hm & Hd & Hh & Hn). unfold exportAsCSV_download. split.
  - unfold exportAsCSV. destruct results; simpl; split;
      congruence || discriminate.
  - intros d E. destruct (exportAsCSV results) as [csv|]; [|discriminate].
    injection E as <-. cbn [blob_data blob_type download_name].
    split; [reflexivity|]. split; [reflexivity|].
    unfold timestamp. cbn [append String.length].
    rewrite !append_length. cbn [append String.length].
    rewrite !append_length. cbn [append String.length].
    rewrite !append_length. cbn [append String.length].
    rewrite !append_length. cbn [append String.length].
    rewrite !two_digits_length by lia. lia.
Qed.

(** ** The further properties on concrete runs *)


Lemma example_list_accepted :
  accepted PipelineExamples.browser [PipelineExamples.source].
Proof.
  repeat split; [discriminate | simpl; lia | repeat constructor].
Qed.

Example timestamp_of_example_time :
  timestamp PageExamples.export_time = "2026-11-03_09-05".
Proof. reflexivity. Qed.

Example capitalized_types :
  map (capitalize PageExamples.keep) ["link"; "image"; "URL"; ""]
  = ["Link"; "Image"; "URL"; ""].
Proof. reflexivity. Qed.

Lemma status_verdicts_are_sound_witness :
  let B := Stub.browser Stub.no_page ValidatorExamples.relay_says_200 in
  let rec := mkResult ValidatorExamples.source
                      (Some ValidatorExamples.image_url) "image" "Valid" "" in
  validationResults
    (snd (validateResource B ValidatorExamples.source ValidatorExamples.image
            Stub.s0)) = [rec]
  /\ exists abs,
       URL B ValidatorExamples.image_url (Some ValidatorExamples.source)
       = Some abs
       /\ resultUrl rec = Some abs
       /\ authoritative B abs [].
Proof.
  cbv zeta. split; [reflexivity|].
  destruct (status_verdicts_are_sound
              (Stub.browser Stub.no_page ValidatorExamples.relay_says_200)
              ValidatorExamples.source ValidatorExamples.image Stub.s0
              (mkResult ValidatorExamples.source
                        (Some ValidatorExamples.image_url) "image" "Valid" "")
              eq_refl) as [Hv _].
  apply Hv. reflexivity.
Defined.



Lemma accepted_run_records_witness :
  accepted PipelineExamples.browser [PipelineExamples.source]
  /\ (exists groups,
         validationResults
           (snd (validateURLs PipelineExamples.browser
                   [PipelineExamples.source] Stub.s0))
         = concat groups
         /\ Forall2 group_ok [PipelineExamples.source] groups)
  /\ forall rec,
       In rec (validationResults
                 (snd (validateURLs PipelineExamples.browser
                         [PipelineExamples.source] Stub.s0))) ->
       In (sourceUrl rec) [PipelineExamples.source] /\ resultUrl rec <> None.
Proof.
  split; [exact example_list_accepted|].
  destruct (accepted_run_records PipelineExamples.browser
              [PipelineExamples.source] Stub.s0 example_list_accepted)
    as (_ & (groups & Hc & _ & Hg) & H).
  split; [exists groups; auto | exact H].
Defined.

Lemma accepted_run_banner_witness :
  accepted PipelineExamples.browser [PipelineExamples.source]
  /\ errorMessage (snd (validateURLs PipelineExamples.browser
                          [PipelineExamples.source] Stub.s0))
     <> "An error occurred during validation. Please try again.".
Proof.
  split; [exact example_list_accepted|].
  destruct (accepted_run_banner PipelineExamples.browser
              [PipelineExamples.source] Stub.s0 example_list_accepted)
    as (_ & _ & H).
  exact H.
Defined.

Lemma accepted_run_budget_witness :
  accepted PipelineExamples.browser [PipelineExamples.source]
  /\ exists evs,
       trace (snd (validateURLs PipelineExamples.browser
                     [PipelineExamples.source] Stub.s0)) = evs
       /\ count_fetches evs <= 2 * 1 + 2 * 2.
Proof.
  split; [exact example_list_accepted|].
  destruct (accepted_run_budget PipelineExamples.browser
              [PipelineExamples.source] Stub.s0 example_list_accepted)
    as (evs & Ht & Hf & _).
  exists evs. split; [exact Ht|]. exact (proj2 Hf).
Defined.

Lemma run_table_rows_witness :
  accepted PipelineExamples.browser [PipelineExamples.source]
  /\ unknownResources
       (summary (displayResults PageExamples.keep
                   (validationResults
                      (snd (validateURLs PipelineExamples.browser
                              [PipelineExamples.source] Stub.s0)))))
     = 0.
Proof.
  split; [exact example_list_accepted|].
  destruct (run_table_rows PageExamples.keep PipelineExamples.browser
              [PipelineExamples.source] Stub.s0 example_list_accepted)
    as (_ & H).
  rewrite H. reflexivity.
Defined.

Lemma run_export_round_trip_witness :
  accepted PipelineExamples.browser [PipelineExamples.source]
  /\ validationResults (snd (validateURLs PipelineExamples.browser
                               [PipelineExamples.source] Stub.s0)) <> []
  /\ exists csv table,
       exportAsCSV (validationResults
                      (snd (validateURLs PipelineExamples.browser
                              [PipelineExamples.source] Stub.s0)))
       = Some csv
       /\ parseCSV csv = Some (headerFields :: table).
Proof.
  split; [exact example_list_accepted|].
  assert (Hne : validationResults
                  (snd (validateURLs PipelineExamples.browser
                          [PipelineExamples.source] Stub.s0)) <> [])
    by discriminate.
  split; [exact Hne|].
  destruct (run_export_round_trip PipelineExamples.browser
              [PipelineExamples.source] Stub.s0 example_list_accepted Hne)
    as (csv & table & E & P & _).
  exists csv, table. auto.
Defined.

Lemma inputURLs_of_lines_witness :
  trim (String.concat (String newline "") PageExamples.typed_lines)
  = String.concat (String newline "") PageExamples.typed_lines
  /\ Forall (fun line => contains_char newline line = false
                         /\ trim line <> "") PageExamples.typed_lines
  /\ inputURLs (String.concat (String newline "") PageExamples.typed_lines)
     = PageExamples.typed_lines.
Proof.
  assert (H1 : trim (String.concat (String newline "")
                       PageExamples.typed_lines)
               = String.concat (String newline "") PageExamples.typed_lines)
    by reflexivity.
  assert (H2 : Forall (fun line => contains_char newline line = false
                                   /\ trim line <> "")
                      PageExamples.typed_lines)
    by (repeat constructor; discriminate).
  split; [exact H1|]. split; [exact H2|].
  exact (inputURLs_of_lines PageExamples.typed_lines H1 H2).
Defined.

Lemma blank_input_is_rejected_witness :
  all_chars ascii_space PageExamples.blank_text = true
  /\ inputURLs PageExamples.blank_text = []
  /\ validateURLs_page PageExamples.keep PipelineExamples.browser
       PageExamples.blank_text PageExamples.old_view Stub.s0
     = (Normal (mkView true true false true None),
        mkState [] "Please enter at least one URL." [] []).
Proof.
  split; [reflexivity|].
  exact (blank_input_is_rejected PageExamples.keep PipelineExamples.browser
           PageExamples.blank_text PageExamples.old_view Stub.s0 eq_refl).
Defined.

Lemma download_name_determines_the_minute_witness :
  valid_time PageExamples.export_time
  /\ exists d1 d2,
       exportAsCSV_download [quoting_result] PageExamples.export_time
       = Some d1
       /\ exportAsCSV_download [quoting_result; quoting_result]
            PageExamples.export_time = Some d2
       /\ download_name d1 = download_name d2
       /\ PageExamples.export_time = PageExamples.export_time.
Proof.
  assert (Hv : valid_time PageExamples.export_time)
    by (unfold valid_time; simpl; lia).
  split; [exact Hv|].
  eexists. eexists. split; [reflexivity|]. split; [reflexivity|].
  split; [reflexivity|].
  exact (download_name_determines_the_minute [quoting_result]
           [quoting_result; quoting_result] PageExamples.export_time
           PageExamples.export_time _ _ Hv Hv eq_refl eq_refl eq_refl).
Defined.

Lemma download_shape_witness :
  valid_time PageExamples.export_time
  /\ exists d,
       exportAsCSV_download [quoting_result] PageExamples.export_time = Some d
       /\ download_name d = "resource_validation_2026-11-03_09-05.csv"
       /\ String.length (download_name d) = 40.
Proof.
  assert (Hv : valid_time PageExamples.export_time)
    by (unfold valid_time; simpl; lia).
  split; [exact Hv|].
  eexists. split; [reflexivity|]. split; [reflexivity|].
  destruct (download_shape [quoting_result] PageExamples.export_time Hv)
    as (_ & H).
  destruct (H _ eq_refl) as (_ & _ & Hl). exact Hl.
Defined.
